(** * MoneyLeaks: the statement-to-ledger pipeline of [lib/transactions.ts]
    and the [/api/analyze] route, as a shallow embedding.

    Conventions of the embedding.
    - A JavaScript string is a [string]: a sequence of code units, here
      restricted to the range 0..255 (the Latin-1 part of UTF-16).
    - A JavaScript number is [NaN] or an exact rational ([Q]) in the
      parser, the mapper and the route: the rounding, the overflow and
      the underflow of IEEE-754 doubles are not modelled there, so a
      decimal literal has its exact value.  The loop of [computeSummary]
      is also given over any arithmetic ([Aggregate]), with binary64
      ([Double]) and the exact rationals as two instances, for the
      properties that depend on how the additions round.
    - A [Record<string, string>] is an association list kept in the order
      in which JavaScript enumerates own properties.
    - The clock ([new Date()]) and the PDF text extractor ([pdf-parse]) are
      inputs of the route, gathered in [Env]. *)

From Stdlib Require Import List String Ascii Bool Arith ZArith QArith Qabs Lia.
From Stdlib Require Import Lqa Sorting.Permutation Floats.SpecFloat.
Import ListNotations.

Local Open Scope string_scope.
Local Open Scope list_scope.

(** ** JavaScript strings *)

Module Js.

Definition code (c : ascii) : nat := nat_of_ascii c.

Definition between (lo hi : nat) (c : ascii) : bool :=
  (lo <=? code c)%nat && (code c <=? hi)%nat.

(** [\d] and [[0-9]]. *)
Definition isDigit (c : ascii) : bool := between 48 57 c.

(** [\w] is [[A-Za-z0-9_]]. *)
Definition isWord (c : ascii) : bool :=
  isDigit c || between 65 90 c || between 97 122 c || Ascii.eqb c "_".

(** [\s], which is also what [trim] strips: TAB, LF, VT, FF, CR, SPACE and
    NBSP are the white space and line terminators below U+0100. *)
Definition isSpace (c : ascii) : bool :=
  between 9 13 c || Ascii.eqb c " " || (code c =? 160)%nat.

Definition LF : ascii := "010".
Definition CR : ascii := "013".

(** [toLowerCase] on one code unit: A-Z, and the Latin-1 capitals
    U+00C0..U+00DE without the multiplication sign U+00D7. *)
Definition lowerChar (c : ascii) : ascii :=
  if between 65 90 c || (between 192 222 c && negb (code c =? 215)%nat)
  then ascii_of_nat (code c + 32)
  else c.

Fixpoint toLowerCase (s : string) : string :=
  match s with
  | EmptyString => EmptyString
  | String c s' => String (lowerChar c) (toLowerCase s')
  end.

(** [s.startsWith(p)] *)
Definition startsWith (s p : string) : bool := prefix p s.

(** [s.includes(sub)] *)
Fixpoint includes (s sub : string) : bool :=
  match s with
  | EmptyString => prefix sub EmptyString
  | String _ s' => prefix sub s || includes s' sub
  end.

(** [s.endsWith(p)] *)
Fixpoint endsWith (s p : string) : bool :=
  String.eqb s p ||
  match s with
  | EmptyString => false
  | String _ s' => endsWith s' p
  end.

Fixpoint forallChar (p : ascii -> bool) (s : string) : bool :=
  match s with
  | EmptyString => true
  | String c s' => p c && forallChar p s'
  end.

Fixpoint existsChar (p : ascii -> bool) (s : string) : bool :=
  match s with
  | EmptyString => false
  | String c s' => p c || existsChar p s'
  end.

Fixpoint filterChar (p : ascii -> bool) (s : string) : string :=
  match s with
  | EmptyString => EmptyString
  | String c s' => if p c then String c (filterChar p s') else filterChar p s'
  end.

Fixpoint trimStart (s : string) : string :=
  match s with
  | EmptyString => EmptyString
  | String c s' => if isSpace c then trimStart s' else s
  end.

Fixpoint trimEnd (s : string) : string :=
  match s with
  | EmptyString => EmptyString
  | String c s' =>
      match trimEnd s' with
      | EmptyString => if isSpace c then EmptyString else String c EmptyString
      | t => String c t
      end
  end.

Definition trim (s : string) : string := trimEnd (trimStart s).

(** The value [Boolean(s)] of a string: false exactly for the empty one. *)
Definition truthy (s : string) : bool := negb (String.eqb s "").

(** Put one more code unit in front of the first piece of a split. *)
Definition consHead (c : ascii) (pieces : list string) : list string :=
  match pieces with
  | [] => [String c EmptyString]
  | t :: ts => String c t :: ts
  end.

Definition headIs (p : ascii -> bool) (s : string) : bool :=
  match s with
  | EmptyString => false
  | String c _ => p c
  end.

(** [s.split(/\r?\n/)]: a CR belongs to the separator only when a LF
    follows it. *)
Fixpoint splitLines (s : string) : list string :=
  match s with
  | EmptyString => [EmptyString]
  | String c s' =>
      if Ascii.eqb c LF then EmptyString :: splitLines s'
      else if Ascii.eqb c CR && headIs (Ascii.eqb LF) s' then splitLines s'
      else consHead c (splitLines s')
  end.

(** [s.split(sep)] for a separator of one code unit. *)
Fixpoint splitChar (sep : ascii) (s : string) : list string :=
  match s with
  | EmptyString => [EmptyString]
  | String c s' =>
      if Ascii.eqb c sep then EmptyString :: splitChar sep s'
      else consHead c (splitChar sep s')
  end.

(** [s.split(/\s+/)]: a maximal run of white space is one separator. *)
Fixpoint splitSpaces (s : string) : list string :=
  match s with
  | EmptyString => [EmptyString]
  | String c s' =>
      if isSpace c then
        if headIs isSpace s' then splitSpaces s'
        else EmptyString :: splitSpaces s'
      else consHead c (splitSpaces s')
  end.

(** [xs.join(sep)] *)
Definition join (sep : string) (xs : list string) : string :=
  String.concat sep xs.

(** [xs.slice(from, to)] for indices within 0..length. *)
Definition slice {A} (xs : list A) (from to : nat) : list A :=
  firstn (to - from) (skipn from xs).

(** A regular expression that is a fixed sequence of character classes
    between [^] and [$]. *)
Fixpoint matchClasses (classes : list (ascii -> bool)) (s : string) : bool :=
  match classes, s with
  | [], EmptyString => true
  | p :: classes', String c s' => p c && matchClasses classes' s'
  | _, _ => false
  end.

(** A regular expression that is an alternation of literals:
    [/k1|k2|.../.test(s)]. *)
Definition testAny (keywords : list string) (s : string) : bool :=
  existsb (includes s) keywords.

(** Lines as both parsers cut them:
    [text.split(/\r?\n/).map(l => l.trim()).filter(Boolean)]. *)
Definition nonBlankLines (text : string) : list string :=
  filter truthy (map trim (splitLines text)).

End Js.

(** ** JavaScript numbers *)

Inductive JsNumber : Type :=
| NaN
| Num (q : Q).

Module Num.

Definition digitValue (c : ascii) : Z := Z.of_nat (Js.code c) - 48.

Fixpoint digitsValue (acc : Z) (s : string) : Z :=
  match s with
  | EmptyString => acc
  | String c s' => digitsValue (10 * acc + digitValue c) s'
  end.

(** The text before the first ['.'] and, when there is one, the text
    after it. *)
Fixpoint breakDot (s : string) : string * option string :=
  match s with
  | EmptyString => (EmptyString, None)
  | String c s' =>
      if Ascii.eqb c "." then (EmptyString, Some s')
      else let (i, f) := breakDot s' in (String c i, f)
  end.

(** [StrUnsignedDecimalLiteral] without exponent: digits, [digits.],
    [digits.digits] or [.digits]. *)
Definition unsignedDecimal (s : string) : option Q :=
  let (ip, fo) := breakDot s in
  let fp := match fo with Some f => f | None => EmptyString end in
  if Js.forallChar Js.isDigit ip && Js.forallChar Js.isDigit fp
     && (Js.truthy ip || Js.truthy fp)
  then Some (Qred (digitsValue 0 (ip ++ fp)
                   # Z.to_pos (10 ^ Z.of_nat (String.length fp))))
  else None.

End Num.

(** [Number(s)] for a string [s] made of digits, ['.'] and ['-'] only, which
    is all the mapper ever passes: the empty string is 0, an optional
    sign is followed by an unsigned decimal literal, anything else is
    [NaN]. *)
Definition Number (s : string) : JsNumber :=
  match s with
  | EmptyString => Num 0
  | String c s' =>
      if Ascii.eqb c "-" then
        match Num.unsignedDecimal s' with
        | Some q => Num (Qred (- q))
        | None => NaN
        end
      else
        match Num.unsignedDecimal s with
        | Some q => Num q
        | None => NaN
        end
  end.

(** [!n || Number.isNaN(n)] *)
Definition falsyNumber (n : JsNumber) : bool :=
  match n with
  | NaN => true
  | Num q => Qeq_bool q 0
  end.

(** ** Rows: [Record<string, string>] *)

(** The own properties of the object, in enumeration order: array-index
    keys first, in ascending numeric order, then the other keys in the
    order of their creation. *)
Definition Row : Type := list (string * string).

Module Row.

(** The array index a key denotes, if it is a canonical numeric string
    below 2^32 - 1. *)
Definition arrayIndex (k : string) : option Z :=
  if Js.truthy k && Js.forallChar Js.isDigit k
     && (String.eqb k "0" || negb (Js.headIs (Ascii.eqb "0") k))
  then
    let n := Num.digitsValue 0 k in
    if (n <? 4294967295)%Z then Some n else None
  else None.

Fixpoint get (k : string) (row : Row) : option string :=
  match row with
  | [] => None
  | (k', v) :: rest => if String.eqb k' k then Some v else get k rest
  end.

Fixpoint update (k v : string) (row : Row) : Row :=
  match row with
  | [] => []
  | (k', v') :: rest =>
      if String.eqb k' k then (k', v) :: rest else (k', v') :: update k v rest
  end.

Fixpoint insertIndex (n : Z) (k v : string) (row : Row) : Row :=
  match row with
  | [] => [(k, v)]
  | (k', v') :: rest =>
      match arrayIndex k' with
      | Some n' =>
          if (n' <? n)%Z then (k', v') :: insertIndex n k v rest
          else (k, v) :: row
      | None => (k, v) :: row
      end
  end.

(** [row[k] = v] for a string [v].  Assigning a string to ["__proto__"]
    goes to the setter of [Object.prototype], which ignores it. *)
Definition set (k v : string) (row : Row) : Row :=
  if String.eqb k "__proto__" then row
  else
    match get k row with
    | Some _ => update k v row
    | None =>
        match arrayIndex k with
        | Some n => insertIndex n k v row
        | None => row ++ [(k, v)]
        end
    end.

(** [Object.values(row)] *)
Definition values (row : Row) : list string := map snd row.

(** [row[k]] as an operand of [||]: [None] when the property is missing
    or is the empty string. *)
Definition truthyGet (k : string) (row : Row) : option string :=
  match get k row with
  | Some v => if Js.truthy v then Some v else None
  | None => None
  end.

(** [row[k1] || row[k2] || ...] *)
Fixpoint firstTruthy (keys : list string) (row : Row) : option string :=
  match keys with
  | [] => None
  | k :: keys' =>
      match truthyGet k row with
      | Some v => Some v
      | None => firstTruthy keys' row
      end
  end.

(** [Object.values(row)[i]] as an operand of [||]. *)
Definition truthyValue (i : nat) (row : Row) : option string :=
  match nth_error (values row) i with
  | Some v => if Js.truthy v then Some v else None
  | None => None
  end.

End Row.

Definition orElse {A} (o : option A) (d : A) : A :=
  match o with
  | Some a => a
  | None => d
  end.

Definition orTry {A} (o1 o2 : option A) : option A :=
  match o1 with
  | Some a => Some a
  | None => o2
  end.

(** ** The data model of [lib/transactions.ts] *)

Inductive TransactionType : Type := DEBIT | CREDIT.

Inductive Category : Type :=
| INCOME | RENT | GROCERIES | FOOD_DELIVERY | SHOPPING | TRANSPORT
| UTILITIES | SUBSCRIPTION | BANK_FEES | TRANSFER | OTHER.

Record Transaction : Type := mkTransaction {
  date : string;
  description : string;
  amount : Q;
  type : TransactionType;
  category : Category;
  raw : option Row
}.

Record Leaks : Type := mkLeaks {
  bankFees : Q;
  subscriptions : Q;
  foodDelivery : Q
}.

Record AnalysisSummary : Type := mkSummary {
  totalIncome : Q;
  totalSpending : Q;
  net : Q;
  byCategory : list (Category * Q);
  leaks : Leaks
}.

Definition TransactionType_eqb (a b : TransactionType) : bool :=
  match a, b with
  | DEBIT, DEBIT | CREDIT, CREDIT => true
  | _, _ => false
  end.

Definition Category_eq_dec (a b : Category) : {a = b} + {a <> b}.
Proof. decide equality. Defined.

Definition Category_eqb (a b : Category) : bool :=
  if Category_eq_dec a b then true else false.

(** ** parseCsv *)

Fixpoint indexed_from {A} (i : nat) (xs : list A) : list (nat * A) :=
  match xs with
  | [] => []
  | x :: xs' => (i, x) :: indexed_from (S i) xs'
  end.

(** The pairs [(i, xs[i])], as [forEach((x, i) => ...)] visits them. *)
Definition indexed {A} (xs : list A) : list (nat * A) := indexed_from 0 xs.

Definition csvRow (headers : list string) (line : string) : Row :=
  let cols := Js.splitChar "," line in
  fold_left
    (fun row ih => Row.set (snd ih) (Js.trim (nth (fst ih) cols "")) row)
    (indexed headers) [].

Definition parseCsv (text : string) : list Row :=
  match Js.nonBlankLines text with
  | header :: (_ :: _) as body =>
      let headers := map Js.trim (Js.splitChar "," header) in
      map (csvRow headers) body
  | _ => []
  end.

(** ** parsePdfTextToRows *)

(** The header lines the loop skips. *)
Definition isHeaderLine (lower : string) : bool :=
  Js.startsWith lower "date"
  || Js.startsWith lower "transaction details"
  || Js.includes lower "cheque/reference"
  || (Js.includes lower "debit" && Js.includes lower "credit"
      && Js.includes lower "balance").

(** [/^\d{2}\s\w{3},\s\d{4}$/] *)
Definition dateRegex : list (ascii -> bool) :=
  [Js.isDigit; Js.isDigit; Js.isSpace; Js.isWord; Js.isWord; Js.isWord;
   Ascii.eqb ","; Js.isSpace;
   Js.isDigit; Js.isDigit; Js.isDigit; Js.isDigit].

(** The indices of the tokens that contain a digit. *)
Definition numericIdx (parts : list string) : list nat :=
  map fst (filter (fun it => Js.existsChar Js.isDigit (snd it)) (indexed parts)).

(** One iteration of the loop: the row pushed for [line], or [None] where
    the loop [continue]s. *)
Definition pdfLineToRow (line : string) : option Row :=
  let lower := Js.toLowerCase line in
  if isHeaderLine lower then None
  else
    let parts := Js.splitSpaces line in
    if (List.length parts <? 5)%nat then None
    else
      let dateCandidate := Js.join " " (Js.slice parts 0 3) in
      if negb (Js.matchClasses dateRegex dateCandidate) then None
      else
        let idx := numericIdx parts in
        if (List.length idx <? 2)%nat then None
        else
          let balanceIdx := nth (List.length idx - 1) idx 0%nat in
          let amountIdx := nth (List.length idx - 2) idx 0%nat in
          let descriptionTokens := Js.slice parts 3 amountIdx in
          let joined := Js.join " " descriptionTokens in
          let description :=
            if Js.truthy joined then joined else "UNKNOWN TRANSACTION" in
          let amountToken := nth amountIdx parts "" in
          let balanceToken := nth balanceIdx parts "" in
          let type :=
            if negb (Js.includes amountToken "-") then CREDIT else DEBIT in
          Some [("Date", dateCandidate);
                ("Description", description);
                ("Amount", amountToken);
                ("Balance", balanceToken);
                ("Credit/Debit",
                 match type with CREDIT => "Credit" | DEBIT => "Debit" end)].

Fixpoint filterMap {A B} (f : A -> option B) (xs : list A) : list B :=
  match xs with
  | [] => []
  | x :: xs' =>
      match f x with
      | Some y => y :: filterMap f xs'
      | None => filterMap f xs'
      end
  end.

Definition parsePdfTextToRows (text : string) : list Row :=
  filterMap pdfLineToRow (Js.nonBlankLines text).

(** ** mapRowToTransaction *)

(** What the route takes from outside: the date [new Date()] gives, as
    [toISOString().slice(0, 10)], and the text [pdf-parse] extracts from
    the bytes of a PDF ([None] where it throws). *)
Record Env : Type := mkEnv {
  today : string;
  pdfParse : string -> option string
}.

Definition descriptionOf (row : Row) : string :=
  orElse
    (orTry
       (Row.firstTruthy
          ["Description"; "Transaction Details"; "Narration"; "details"] row)
       (Row.truthyValue 1 row))
    "".

Definition amountStr (row : Row) : string :=
  orElse
    (orTry
       (Row.firstTruthy
          ["Amount"; "Withdrawal Amt."; "Debit"; "DEBIT"; "Deposit Amt.";
           "Credit"; "CREDIT"] row)
       (Row.truthyValue 2 row))
    "0".

(** [/[^0-9.-]/g]: the code units that [replace] removes are the ones that
    are not kept here. *)
Definition keptInAmount (c : ascii) : bool :=
  Js.isDigit c || Ascii.eqb c "." || Ascii.eqb c "-".

(** [amountStr.replace(/[^0-9.-]/g, "")] *)
Definition cleaned (row : Row) : string :=
  Js.filterChar keptInAmount (amountStr row).

Definition typeField (row : Row) : string :=
  Js.toLowerCase
    (orElse (Row.firstTruthy ["Credit/Debit"; "Cr/Dr"; "Dr/Cr"; "Type"] row) "").

Definition Qltb (x y : Q) : bool := negb (Qle_bool y x).

Definition dateOf (env : Env) (row : Row) : string :=
  orElse
    (Row.firstTruthy ["Date"; "DATE"; "Transaction Date"; "Value Date"] row)
    (today env).

Definition mapRowToTransaction (env : Env) (row : Row) : option Transaction :=
  let description := descriptionOf row in
  let parsed := Number (cleaned row) in
  if falsyNumber parsed then None
  else
    match parsed with
    | NaN => None
    | Num amount =>
        let tf := typeField row in
        let type :=
          if Js.includes tf "credit" || Js.includes tf "cr" || Qltb amount 0
          then CREDIT else DEBIT in
        Some {| date := dateOf env row;
                description := description;
                amount := Qabs amount;
                type := type;
                category := OTHER;
                raw := Some row |}
    end.

(** ** categorizeTransaction *)

(** [{ ...tx, category: c }] *)
Definition withCategory (tx : Transaction) (c : Category) : Transaction :=
  {| date := date tx;
     description := description tx;
     amount := amount tx;
     type := type tx;
     category := c;
     raw := raw tx |}.

Definition subscriptionWords : list string :=
  ["netflix"; "spotify"; "youtube premium"; "hotstar"; "prime"; "zee5";
   "subscription"; "renewal"].
Definition foodDeliveryWords : list string :=
  ["swiggy"; "zomato"; "blinkit"; "eats"; "foodpanda"].
Definition rentWords : list string := ["rent"].
Definition groceryWords : list string :=
  ["big bazaar"; "d-mart"; "dmart"; "grofers"; "grocery"; "more supermarket";
   "reliance fresh"].
Definition shoppingWords : list string :=
  ["amazon"; "flipkart"; "myntra"; "ajio"; "nykaa"].
Definition transportWords : list string :=
  ["uber"; "ola"; "rapido"; "metro"; "bus"; "auto"; "cab"].
Definition utilityWords : list string :=
  ["electricity"; "water bill"; "gas bill"; "mobile bill"; "postpaid";
   "prepaid"; "wifi"; "broadband"; "jio"; "airtel"].
Definition bankFeeWords : list string :=
  ["charge"; "fee"; "penalty"; "fine"; "interest"; "late fee"; "bank charge";
   "annual fee"].
Definition transferWords : list string :=
  ["neft"; "rtgs"; "imps"; "upi"; "transfer"; "to account"; "from account"].

(** The keyword tests, in the order of the [if] statements that follow
    the CREDIT test.  [/rent/i] is applied to the lower-cased description
    like the others, where its flag changes nothing. *)
Definition keywordRules : list (list string * Category) :=
  [(subscriptionWords, SUBSCRIPTION);
   (foodDeliveryWords, FOOD_DELIVERY);
   (rentWords, RENT);
   (groceryWords, GROCERIES);
   (shoppingWords, SHOPPING);
   (transportWords, TRANSPORT);
   (utilityWords, UTILITIES);
   (bankFeeWords, BANK_FEES);
   (transferWords, TRANSFER)].

Definition categorizeTransaction (tx : Transaction) : Transaction :=
  let desc := Js.toLowerCase (description tx) in
  if TransactionType_eqb (type tx) CREDIT then withCategory tx INCOME
  else if Js.testAny subscriptionWords desc then withCategory tx SUBSCRIPTION
  else if Js.testAny foodDeliveryWords desc then withCategory tx FOOD_DELIVERY
  else if Js.testAny rentWords desc then withCategory tx RENT
  else if Js.testAny groceryWords desc then withCategory tx GROCERIES
  else if Js.testAny shoppingWords desc then withCategory tx SHOPPING
  else if Js.testAny transportWords desc then withCategory tx TRANSPORT
  else if Js.testAny utilityWords desc then withCategory tx UTILITIES
  else if Js.testAny bankFeeWords desc then withCategory tx BANK_FEES
  else if Js.testAny transferWords desc then withCategory tx TRANSFER
  else tx.

(** No keyword test of the rule list succeeds on the description. *)
Definition noKeywordRule (tx : Transaction) : Prop :=
  Forall
    (fun rule =>
       Js.testAny (fst rule) (Js.toLowerCase (description tx)) = false)
    keywordRules.

(** ** computeSummary *)

Definition allCategories : list Category :=
  [INCOME; RENT; GROCERIES; FOOD_DELIVERY; SHOPPING; TRANSPORT; UTILITIES;
   SUBSCRIPTION; BANK_FEES; TRANSFER; OTHER].

(** The object literal [byCategory] starts from. *)
Definition zeroByCategory : list (Category * Q) :=
  map (fun c => (c, 0%Q)) allCategories.

(** [byCategory[c] += a], for a key the object has. *)
Definition addTo (c : Category) (a : Q) (m : list (Category * Q))
  : list (Category * Q) :=
  map (fun kv => if Category_eqb (fst kv) c then (fst kv, (snd kv + a)%Q) else kv)
      m.

(** [byCategory[c]]; every category is a key, so the default is never
    taken (see [lookup_defined]). *)
Definition lookup (c : Category) (m : list (Category * Q)) : Q :=
  match find (fun kv => Category_eqb (fst kv) c) m with
  | Some kv => snd kv
  | None => 0%Q
  end.

(** The three variables the loop updates. *)
Record Totals : Type := mkTotals {
  accIncome : Q;
  accSpending : Q;
  accByCategory : list (Category * Q)
}.

Definition summaryStep (acc : Totals) (tx : Transaction) : Totals :=
  {| accIncome :=
       match type tx with
       | CREDIT => (accIncome acc + amount tx)%Q
       | DEBIT => accIncome acc
       end;
     accSpending :=
       match type tx with
       | CREDIT => accSpending acc
       | DEBIT => (accSpending acc + amount tx)%Q
       end;
     accByCategory := addTo (category tx) (amount tx) (accByCategory acc) |}.

Definition computeSummary (transactions : list Transaction) : AnalysisSummary :=
  let acc :=
    fold_left summaryStep transactions
      {| accIncome := 0; accSpending := 0; accByCategory := zeroByCategory |} in
  {| totalIncome := accIncome acc;
     totalSpending := accSpending acc;
     net := (accIncome acc - accSpending acc)%Q;
     byCategory := accByCategory acc;
     leaks :=
       {| bankFees := lookup BANK_FEES (accByCategory acc);
          subscriptions := lookup SUBSCRIPTION (accByCategory acc);
          foodDelivery := lookup FOOD_DELIVERY (accByCategory acc) |} |}.

(** [Object.values(byCategory)] added up. *)
Definition sumValues (m : list (Category * Q)) : Q :=
  fold_right (fun kv s => (snd kv + s)%Q) 0%Q m.

(** ** The route [POST /api/analyze] *)

Record File : Type := mkFile {
  file_name : string;
  file_type : string;
  file_content : string
}.

Inductive Request : Type :=
| FormDataThrows
| FormData (file : option File).

Inductive Response : Type :=
| ErrorResponse (status : nat) (error : string)
| Analysis (transactions : list Transaction) (summary : AnalysisSummary).

Definition msgNoFile : string := "No file uploaded".
Definition msgUnreadablePdf : string :=
  "Could not read text from this PDF. Some bank PDFs are scanned images. Try downloading your statement as CSV or as a text-based PDF and upload again.".
Definition msgNoTransactions : string :=
  "Could not detect any transactions in this file. Check that your CSV/PDF layout matches your bank’s standard e-statement.".
Definition msgFailed : string :=
  "Failed to analyze file. Make sure it's a valid CSV or a text-based PDF exported from your bank.".

Definition isPdf (file : File) : bool :=
  Js.endsWith (Js.toLowerCase (file_name file)) ".pdf"
  || String.eqb (Js.toLowerCase (file_type file)) "application/pdf".

(** The rows of the file: the PDF branch or the CSV branch.  [None] when
    the PDF branch catches an exception. *)
Definition extractRows (env : Env) (file : File) : option (list Row) :=
  if isPdf file then
    match pdfParse env (file_content file) with
    | Some text => Some (parsePdfTextToRows text)
    | None => None
    end
  else Some (parseCsv (file_content file)).

(** [rows.map(mapRowToTransaction).filter(t => !!t).map(categorizeTransaction)] *)
Definition transactionsOf (env : Env) (rows : list Row) : list Transaction :=
  map categorizeTransaction (filterMap (mapRowToTransaction env) rows).

(** The route from the test [!rows.length] on. *)
Definition analyzeRows (env : Env) (rows : list Row) : Response :=
  match rows with
  | [] => ErrorResponse 400 msgNoTransactions
  | _ :: _ =>
      let transactions := transactionsOf env rows in
      Analysis transactions (computeSummary transactions)
  end.

Definition POST (env : Env) (req : Request) : Response :=
  match req with
  | FormDataThrows => ErrorResponse 500 msgFailed
  | FormData None => ErrorResponse 400 msgNoFile
  | FormData (Some file) =>
      match extractRows env file with
      | None => ErrorResponse 400 msgUnreadablePdf
      | Some rows => analyzeRows env rows
      end
  end.

(** The summary a response carries, if it carries one. *)
Definition summaryOf (r : Response) : option AnalysisSummary :=
  match r with
  | ErrorResponse _ _ => None
  | Analysis _ summary => Some summary
  end.

(** ** The backend's counterparty names

    The front end reads [merchant] on transactions and [topMerchants] on
    the summary "coming from /analyze backend API"; the functions that
    compute them are in [moneyleaks-backend/main.py]. *)

Module Backend.

(** Modelled from the spec: a "pure reference-number fragment" of the
    missing normalizer, taken as a token of digits only. *)
Definition pureReference (token : string) : bool :=
  Js.forallChar Js.isDigit token.

(** Modelled from the spec: the counterparty normalizer of
    [moneyleaks-backend/main.py], which is missing.  A narration of the
    form PREFIX/NAME/REFERENCE/NOTE gives its second field; any other one
    is trimmed and loses its pure reference-number fragments, and gives
    no name when nothing remains. *)
Definition normalizeCounterparty (description : string) : option string :=
  match Js.splitChar "/" description with
  | [_; name; _; _] => Some name
  | _ =>
      let kept :=
        filter (fun t => Js.truthy t && negb (pureReference t))
               (Js.splitSpaces (Js.trim description)) in
      let name := Js.join " " kept in
      if Js.truthy name then Some name else None
  end.

(** An entry of [topMerchants], as the front-end types declare it. *)
Record MerchantTotal : Type := mkTotal {
  merchant : string;
  amount : Q
}.

End Backend.

(** ** Predicates used in the statements *)

(** The parsed amount is zero or is not a number. *)
Definition ZeroOrNaN (n : JsNumber) : Prop :=
  match n with
  | NaN => True
  | Num q => (q == 0)%Q
  end.

(** The row has a non-empty value under one of the date headers, so the
    mapper does not fall back on the clock. *)
Definition hasDate (row : Row) : Prop :=
  Row.firstTruthy ["Date"; "DATE"; "Transaction Date"; "Value Date"] row
  <> None.

(** The row has a non-empty value under one of the type headers. *)
Definition hasTypeColumn (row : Row) : Prop :=
  Row.firstTruthy ["Credit/Debit"; "Cr/Dr"; "Dr/Cr"; "Type"] row <> None.

(** Every row extracted from the file has a date, if rows are extracted. *)
Definition allRowsDated (env : Env) (req : Request) : Prop :=
  match req with
  | FormData (Some file) =>
      match extractRows env file with
      | Some rows => Forall hasDate rows
      | None => True
      end
  | _ => True
  end.

(** [{ ...tx, date: d }] *)
Definition withDate (d : string) (tx : Transaction) : Transaction :=
  {| date := d;
     description := description tx;
     amount := amount tx;
     type := type tx;
     category := category tx;
     raw := raw tx |}.

(** What [computeSummary] reads of a transaction. *)
Definition summarized (tx : Transaction) : TransactionType * Q * Category :=
  (type tx, amount tx, category tx).

(** What the loop of [computeSummary] keeps true. *)
Definition balanced (acc : Totals) : Prop :=
  map fst (accByCategory acc) = allCategories
  /\ (sumValues (accByCategory acc) == accIncome acc + accSpending acc)%Q.

(** ** Binary64

    The doubles of JavaScript, by the specification of IEEE-754 binary
    floating point of the standard library at precision 53 and maximal
    exponent 1024: round to nearest, ties to even. *)

Module Double.

Definition double : Type := spec_float.

Definition zero : double := S754_zero false.

(** [x + y] *)
Definition add (x y : double) : double := SFadd 53 1024 x y.

(** [x - y] *)
Definition sub (x y : double) : double := SFsub 53 1024 x y.

(** [x === y] on numbers *)
Definition eqb (x y : double) : bool := SFeqb x y.

(** The double of an integer. *)
Definition ofZ (z : Z) : double := binary_normalize 53 1024 z 0 false.

(** The double a decimal literal denotes, [n] over [10^k], for [n] below
    2^53 and [k] at most 22: the numerator and the denominator are
    doubles, and their quotient is rounded once. *)
Definition decimal (n k : Z) : double :=
  SFdiv 53 1024 (ofZ n) (ofZ (10 ^ k)).

End Double.

(** ** computeSummary, whatever the arithmetic

    The loop of [computeSummary] over numbers of any type [N], with
    [zero] for the literal 0, [add] for [+] and [sub] for [-].  An item
    is what the loop reads of a transaction: its type, its amount and
    its category.  [computeSummary] above is this loop over the exact
    rationals (see [computeSummary_as_aggregate]). *)

Module Aggregate.

Section Over.

Variable N : Type.
Variable zero : N.
Variable add : N -> N -> N.
Variable sub : N -> N -> N.

Definition Item : Type := (TransactionType * N * Category)%type.

Definition itemType (it : Item) : TransactionType := fst (fst it).
Definition itemAmount (it : Item) : N := snd (fst it).
Definition itemCategory (it : Item) : Category := snd it.

Record Summary : Type := mkSummary {
  totalIncome : N;
  totalSpending : N;
  net : N;
  byCategory : list (Category * N);
  bankFees : N;
  subscriptions : N;
  foodDelivery : N
}.

Definition zeroByCategory : list (Category * N) :=
  map (fun c => (c, zero)) allCategories.

(** [byCategory[c] += a] *)
Definition addTo (c : Category) (a : N) (m : list (Category * N))
  : list (Category * N) :=
  map (fun kv => if Category_eqb (fst kv) c then (fst kv, add (snd kv) a) else kv)
      m.

(** [byCategory[c]] *)
Definition lookup (c : Category) (m : list (Category * N)) : N :=
  match find (fun kv => Category_eqb (fst kv) c) m with
  | Some kv => snd kv
  | None => zero
  end.

(** The body of the loop, on [totalIncome], [totalSpending] and
    [byCategory]. *)
Definition step (acc : N * N * list (Category * N)) (it : Item)
  : N * N * list (Category * N) :=
  let '(income, spending, categories) := acc in
  (match itemType it with
   | CREDIT => add income (itemAmount it)
   | DEBIT => income
   end,
   match itemType it with
   | CREDIT => spending
   | DEBIT => add spending (itemAmount it)
   end,
   addTo (itemCategory it) (itemAmount it) categories).

Definition computeSummary (items : list Item) : Summary :=
  let '(income, spending, categories) :=
    fold_left step items (zero, zero, zeroByCategory) in
  {| totalIncome := income;
     totalSpending := spending;
     net := sub income spending;
     byCategory := categories;
     bankFees := lookup BANK_FEES categories;
     subscriptions := lookup SUBSCRIPTION categories;
     foodDelivery := lookup FOOD_DELIVERY categories |}.

(** [Object.values(byCategory)] added up from 0, from the first key to
    the last, and from the last to the first. *)
Definition sumValues (m : list (Category * N)) : N :=
  fold_left (fun s kv => add s (snd kv)) m zero.

Definition sumValuesRight (m : list (Category * N)) : N :=
  fold_right (fun kv s => add (snd kv) s) zero m.

(** Amounts added up from 0 in the order of the list. *)
Definition inOrder (amounts : list N) : N := fold_left add amounts zero.

Definition isCredit (it : Item) : bool :=
  TransactionType_eqb (itemType it) CREDIT.

Definition isDebit (it : Item) : bool := negb (isCredit it).

Definition inCategory (c : Category) (it : Item) : bool :=
  Category_eqb (itemCategory it) c.

(** The amounts of the items that pass a test, in the order of the list. *)
Definition amountsWhere (p : Item -> bool) (items : list Item) : list N :=
  map itemAmount (filter p items).

End Over.

Arguments itemType {N} it.
Arguments itemAmount {N} it.
Arguments itemCategory {N} it.
Arguments totalIncome {N} s.
Arguments totalSpending {N} s.
Arguments net {N} s.
Arguments byCategory {N} s.
Arguments bankFees {N} s.
Arguments subscriptions {N} s.
Arguments foodDelivery {N} s.
Arguments zeroByCategory {N} zero.
Arguments addTo {N} add c a m.
Arguments lookup {N} zero c m.
Arguments step {N} add acc it.
Arguments computeSummary {N} zero add sub items.
Arguments sumValues {N} zero add m.
Arguments sumValuesRight {N} zero add m.
Arguments inOrder {N} zero add amounts.
Arguments isCredit {N} it.
Arguments isDebit {N} it.
Arguments inCategory {N} c it.
Arguments amountsWhere {N} p items.

End Aggregate.

(** ** The summary as the page receives it *)

(** The values of the properties of a summary object. *)
Inductive SummaryValue : Type :=
| VNumber (q : Q)
| VByCategory (m : list (Category * Q))
| VLeaks (l : Leaks)
| VMerchants (ms : list Backend.MerchantTotal).

(** The object [computeSummary] returns: the properties of its object
    literal, in order. *)
Definition summaryObject (s : AnalysisSummary) : list (string * SummaryValue) :=
  [("totalIncome", VNumber (totalIncome s));
   ("totalSpending", VNumber (totalSpending s));
   ("net", VNumber (net s));
   ("byCategory", VByCategory (byCategory s));
   ("leaks", VLeaks (leaks s))].

(** [object[k]], [None] for [undefined]. *)
Fixpoint property (k : string) (object : list (string * SummaryValue))
  : option SummaryValue :=
  match object with
  | [] => None
  | (k', v) :: rest => if String.eqb k' k then Some v else property k rest
  end.

(** ** Functions of [app/page.tsx] *)

Module Page.

(** [categoryChartData]: the entries of [byCategory] with a positive
    amount, in the order of the object; nothing without a summary. *)
Definition categoryChartData (summary : option AnalysisSummary)
  : list (Category * Q) :=
  match summary with
  | None => []
  | Some s => filter (fun entry => Qltb 0 (snd entry)) (byCategory s)
  end.

(** [totalPotentialLeak] *)
Definition totalPotentialLeak (summary : option AnalysisSummary) : Q :=
  match summary with
  | Some s =>
      (bankFees (leaks s) + subscriptions (leaks s) + foodDelivery (leaks s))%Q
  | None => 0%Q
  end.

(** [topMerchants]: the property of the summary, and the empty list
    without a summary or without the property. *)
Definition topMerchants (summary : option (list (string * SummaryValue)))
  : list Backend.MerchantTotal :=
  match summary with
  | None => []
  | Some object =>
      match property "topMerchants" object with
      | Some (VMerchants ms) => ms
      | _ => []
      end
  end.

End Page.

(** ** Reference sums and tables for the statements *)

(** The amounts of a list of transactions, added up. *)
Definition sumAmounts (txs : list Transaction) : Q :=
  fold_right (fun tx s => (amount tx + s)%Q) 0%Q txs.

Definition ofCategory (c : Category) (txs : list Transaction)
  : list Transaction :=
  filter (fun tx => Category_eqb (category tx) c) txs.

Definition ofType (ty : TransactionType) (txs : list Transaction)
  : list Transaction :=
  filter (fun tx => TransactionType_eqb (type tx) ty) txs.

(** The category of the first rule of [keywordRules] with a keyword in
    the lower-cased description. *)
Definition firstRule (desc : string) : option Category :=
  option_map snd (find (fun rule => Js.testAny (fst rule) desc) keywordRules).

(** What holds of a transaction that went through the mapper and the
    categorizer: a positive amount, the category INCOME exactly for a
    CREDIT, and one of the rows as its [raw]. *)
Definition wellFormed (rows : list Row) (tx : Transaction) : Prop :=
  (0 < amount tx)%Q
  /\ (type tx = CREDIT <-> category tx = INCOME)
  /\ exists row, In row rows /\ raw tx = Some row.

(** The body of the [forEach] of [parseCsv]: [row[h] = (cols[i] ?? "").trim()]. *)
Definition csvStep (cols : list string) (row : Row) (ih : nat * string) : Row :=
  Row.set (snd ih) (Js.trim (nth (fst ih) cols "")) row.

(** The headers of a text: the trimmed fields of its first non-blank
    line. *)
Definition csvHeaders (text : string) : list string :=
  map Js.trim (Js.splitChar "," (hd "" (Js.nonBlankLines text))).

(** The last code unit of a string. *)
Fixpoint lastChar (s : string) : option ascii :=
  match s with
  | EmptyString => None
  | String c s' =>
      match lastChar s' with
      | Some d => Some d
      | None => Some c
      end
  end.

(** The keys of a row, in enumeration order. *)
Definition keys (row : Row) : list string := map fst row.

(** The five keys of the rows the PDF extractor pushes. *)
Definition pdfKeys : list string :=
  ["Date"; "Description"; "Amount"; "Balance"; "Credit/Debit"].

(** ** Sample inputs *)

Module Sample.

Definition env (day : string) : Env :=
  {| today := day; pdfParse := fun bytes => Some bytes |}.

Definition lines (ls : list string) : string :=
  String.concat (String Js.LF EmptyString) ls.

(** A row with an explicit type column that says Debit and a negative
    amount. *)
Definition debitRowNegativeAmount : Row :=
  [("Date", "01-10-2025"); ("Description", "ATM WITHDRAWAL");
   ("Amount", "-135.00"); ("Type", "Debit")].

(** The statement line of scenario B. *)
Definition scenarioB : string :=
  "01 Oct, 2025 UPI/DEVRAJ VERMA/29xxxx/Sent using Paytm UPI-527431570952 -135.00 20,127.38".

Definition scenarioB_row : Row :=
  [("Date", "01 Oct, 2025");
   ("Description", "UPI/DEVRAJ VERMA/29xxxx/Sent using Paytm UPI-527431570952");
   ("Amount", "-135.00");
   ("Balance", "20,127.38");
   ("Credit/Debit", "Debit")].

Definition swiggyRow : Row :=
  [("Date", "01-10-2025"); ("Description", "SWIGGY ORDER");
   ("Amount", "450"); ("Type", "Debit")].

Definition zeroRow : Row :=
  [("Date", "02-10-2025"); ("Description", "ZERO"); ("Amount", "0");
   ("Type", "Debit")].

Definition salaryRow : Row :=
  [("Date", "03-10-2025"); ("Description", "SALARY"); ("Amount", "50,000.00");
   ("Type", "Credit")].

(** The statement of scenario A. *)
Definition swiggyCsv : File :=
  {| file_name := "statement.csv";
     file_type := "text/csv";
     file_content :=
       lines ["Date,Description,Amount,Type";
              "01-10-2025,SWIGGY ORDER,450,Debit"] |}.

(** A CSV statement with the header Amount twice and a line that stops
    after its third field. *)
Definition twoAmountsCsv : string :=
  lines ["Date,Description,Amount,Amount"; "01-10-2025,COFFEE,120"].

(** A PDF upload whose extracted text is the line of scenario B. *)
Definition scenarioB_pdf : File :=
  {| file_name := "Statement.PDF";
     file_type := "";
     file_content := scenarioB |}.

(** A CSV statement whose only row has amount 0. *)
Definition zeroCsv : File :=
  {| file_name := "statement.csv";
     file_type := "text/csv";
     file_content := lines ["Date,Description,Amount"; "01-10-2025,NOTHING,0"] |}.

(** A CSV file with nothing but its header line. *)
Definition headerOnlyCsv : File :=
  {| file_name := "statement.csv";
     file_type := "text/csv";
     file_content := "Date,Description,Amount" |}.

Definition datedCsv : File :=
  {| file_name := "statement.csv";
     file_type := "text/csv";
     file_content :=
       lines ["Date,Description,Amount,Type";
              "01-10-2025,SWIGGY ORDER,450,Debit";
              "03-10-2025,SALARY,50000,Credit"] |}.

(** What the mapper makes of [swiggyRow], whatever the day. *)
Definition swiggyTx : Transaction :=
  {| date := "01-10-2025"; description := "SWIGGY ORDER"; amount := 450;
     type := DEBIT; category := OTHER; raw := Some swiggyRow |}.

(** What the mapper makes of [scenarioB_row]. *)
Definition scenarioB_tx : Transaction :=
  {| date := "01 Oct, 2025";
     description := "UPI/DEVRAJ VERMA/29xxxx/Sent using Paytm UPI-527431570952";
     amount := 135;
     type := CREDIT;
     category := OTHER;
     raw := Some scenarioB_row |}.

(** The only row of [zeroCsv]. *)
Definition zeroCsv_row : Row :=
  [("Date", "01-10-2025"); ("Description", "NOTHING"); ("Amount", "0")].

(** A DEBIT description with a food-delivery keyword and a rent keyword. *)
Definition zomatoRent : Transaction :=
  {| date := "05-10-2025"; description := "ZOMATO order, flat rent split";
     amount := 320; type := DEBIT; category := OTHER; raw := None |}.

(** A row whose type column says Debit and whose amount text is a range. *)
Definition dashedAmountRow : Row :=
  [("Date", "01-10-2025"); ("Description", "CARD SWIPE");
   ("Amount", "-2,500.00"); ("Cr/Dr", "DR")].

(** Three categorized transactions. *)
Definition october : list Transaction :=
  [{| date := "01-10-2025"; description := "SWIGGY ORDER"; amount := 450;
      type := DEBIT; category := FOOD_DELIVERY; raw := None |};
   {| date := "03-10-2025"; description := "SALARY"; amount := 50000;
      type := CREDIT; category := INCOME; raw := None |};
   {| date := "07-10-2025"; description := "NETFLIX"; amount := 199;
      type := DEBIT; category := SUBSCRIPTION; raw := None |}].

(** Three payments of 0.3, 0.2 and 0.1, as doubles. *)
Definition tenths : list (Aggregate.Item Double.double) :=
  [(DEBIT, Double.decimal 3 1, OTHER);
   (DEBIT, Double.decimal 2 1, RENT);
   (DEBIT, Double.decimal 1 1, GROCERIES)].

(** Two credits and a payment, as doubles. *)
Definition salaryAndRent : list (Aggregate.Item Double.double) :=
  [(CREDIT, Double.decimal 1 1, INCOME);
   (DEBIT, Double.decimal 3 1, RENT);
   (CREDIT, Double.decimal 2 1, INCOME)].

Definition creditSwiggy : Transaction :=
  {| date := "01-10-2025"; description := "SWIGGY REFUND"; amount := 450;
     type := CREDIT; category := OTHER; raw := None |}.

(** A DEBIT transaction no keyword matches, which comes with a category
    other than OTHER. *)
Definition unmatchedRent : Transaction :=
  {| date := "01-10-2025"; description := "xyz"; amount := 100;
     type := DEBIT; category := RENT; raw := None |}.

End Sample.

(** * Properties *)

(** ** Helper lemmas *)

Lemma filterMap_app {A B} (f : A -> option B) (xs ys : list A) :
  filterMap f (xs ++ ys) = filterMap f xs ++ filterMap f ys.
Proof.
  induction xs as [|x xs IH]; simpl; [reflexivity|].
  destruct (f x); simpl; now rewrite IH.
Qed.

Lemma falsyNumber_spec (n : JsNumber) :
  falsyNumber n = true <-> ZeroOrNaN n.
Proof.
  destruct n as [|q]; simpl.
  - tauto.
  - apply Qeq_bool_iff.
Qed.

(** The mapper answers [null] exactly where the guard fires. *)
Lemma mapRowToTransaction_None (env : Env) (row : Row) :
  mapRowToTransaction env row = None <->
  falsyNumber (Number (cleaned row)) = true.
Proof.
  unfold mapRowToTransaction.
  destruct (Number (cleaned row)) as [|q] eqn:E; simpl.
  - tauto.
  - destruct (Qeq_bool q 0); split; intro H; congruence.
Qed.

(** The shape of every transaction the mapper returns. *)
Lemma mapRowToTransaction_Some (env : Env) (row : Row) (tx : Transaction) :
  mapRowToTransaction env row = Some tx ->
  exists q,
    Number (cleaned row) = Num q /\ ~ (q == 0)%Q /\
    tx = {| date := dateOf env row;
            description := descriptionOf row;
            amount := Qabs q;
            type := if Js.includes (typeField row) "credit"
                       || Js.includes (typeField row) "cr" || Qltb q 0
                    then CREDIT else DEBIT;
            category := OTHER;
            raw := Some row |}.
Proof.
  unfold mapRowToTransaction.
  destruct (Number (cleaned row)) as [|q] eqn:E; simpl; [discriminate|].
  destruct (Qeq_bool q 0) eqn:Z; [discriminate|].
  intros [= <-]. exists q. split; [reflexivity|]. split; [|reflexivity].
  now apply Qeq_bool_neq.
Qed.

Lemma Qabs_pos_of_nonzero (q : Q) : ~ (q == 0)%Q -> (0 < Qabs q)%Q.
Proof.
  intros Hq. apply Qabs_case; intros H.
  - destruct (Qle_lt_or_eq _ _ H) as [L|E]; [exact L|].
    exfalso. apply Hq. symmetry. exact E.
  - destruct (Qle_lt_or_eq _ _ H) as [L|E]; [|contradiction].
    lra.
Qed.

(** ** The transaction mapper *)

(** C10: every transaction [mapRowToTransaction] returns has an amount
    strictly greater than zero, because a row whose cleaned amount parses
    to 0 or NaN is rejected before the absolute value is taken. *)
Theorem mapRowToTransaction_amount_positive
  (env : Env) (row : Row) (tx : Transaction) :
  mapRowToTransaction env row = Some tx -> (0 < amount tx)%Q.
Proof.
  intros H.
  destruct (mapRowToTransaction_Some env row tx H) as (q & _ & Hq & ->).
  simpl. now apply Qabs_pos_of_nonzero.
Qed.

Lemma mapRowToTransaction_amount_positive_witness :
  mapRowToTransaction (Sample.env "2025-11-02") Sample.swiggyRow
  = Some Sample.swiggyTx
  /\ (0 < amount Sample.swiggyTx)%Q.
Proof.
  assert (H : mapRowToTransaction (Sample.env "2025-11-02") Sample.swiggyRow
              = Some Sample.swiggyTx) by reflexivity.
  split; [exact H|].
  exact (mapRowToTransaction_amount_positive _ _ _ H).
Defined.

(** C6: [mapRowToTransaction] returns nothing for a row exactly when the
    amount string, stripped of every character other than digits, '.'
    and '-', parses to zero or to NaN; such a row is dropped from the
    transactions of the batch and the route still answers with the
    analysis of the other rows. *)
Theorem mapRowToTransaction_rejects_exactly (env : Env) (row : Row) :
  (mapRowToTransaction env row = None <-> ZeroOrNaN (Number (cleaned row)))
  /\ (mapRowToTransaction env row = None ->
      forall before after : list Row,
        transactionsOf env (before ++ row :: after)
        = transactionsOf env (before ++ after)
        /\ analyzeRows env (before ++ row :: after)
           = Analysis (transactionsOf env (before ++ after))
               (computeSummary (transactionsOf env (before ++ after)))).
Proof.
  split.
  - rewrite mapRowToTransaction_None. apply falsyNumber_spec.
  - intros Hrej before after.
    assert (Htx : transactionsOf env (before ++ row :: after)
                  = transactionsOf env (before ++ after)).
    { unfold transactionsOf. rewrite !filterMap_app. simpl.
      now rewrite Hrej. }
    split; [exact Htx|].
    unfold analyzeRows.
    destruct (before ++ row :: after) as [|r rs] eqn:E.
    + destruct before; discriminate.
    + cbv zeta. rewrite Htx. reflexivity.
Qed.

Lemma mapRowToTransaction_rejects_exactly_witness :
  mapRowToTransaction (Sample.env "2025-11-02") Sample.zeroRow = None
  /\ transactionsOf (Sample.env "2025-11-02")
       ([Sample.swiggyRow] ++ Sample.zeroRow :: [Sample.salaryRow])
     = transactionsOf (Sample.env "2025-11-02")
         ([Sample.swiggyRow] ++ [Sample.salaryRow]).
Proof.
  assert (H : mapRowToTransaction (Sample.env "2025-11-02") Sample.zeroRow
              = None) by reflexivity.
  split; [exact H|].
  exact (proj1 (proj2 (mapRowToTransaction_rejects_exactly _ _) H
                  [Sample.swiggyRow] [Sample.salaryRow])).
Defined.

(** C1, at a row the claim gets wrong: the row has an explicit type column
    that says Debit, containing neither "credit" nor "cr", and a negative
    amount; the mapper gives it type CREDIT, where the claim says DEBIT. *)
Theorem mapRowToTransaction_debit_column_negative_amount :
  Row.firstTruthy ["Credit/Debit"; "Cr/Dr"; "Dr/Cr"; "Type"]
    Sample.debitRowNegativeAmount = Some "Debit"
  /\ Js.includes (typeField Sample.debitRowNegativeAmount) "credit" = false
  /\ Js.includes (typeField Sample.debitRowNegativeAmount) "cr" = false
  /\ Number (cleaned Sample.debitRowNegativeAmount) = Num (-135)
  /\ option_map type
       (mapRowToTransaction (Sample.env "2025-11-02")
          Sample.debitRowNegativeAmount)
     = Some CREDIT.
Proof. repeat split; reflexivity. Qed.

(** C3, scenario B: the extractor makes one row of the line and marks it
    Debit by its sign rule; the mapper makes one transaction of that row,
    with the description that contains DEVRAJ VERMA and the amount 135,
    but with type CREDIT, where the claim says DEBIT; the counterparty
    name of the description is DEVRAJ VERMA. *)
Theorem scenarioB_pipeline (env : Env) :
  parsePdfTextToRows Sample.scenarioB = [Sample.scenarioB_row]
  /\ Row.get "Credit/Debit" Sample.scenarioB_row = Some "Debit"
  /\ filterMap (mapRowToTransaction env) (parsePdfTextToRows Sample.scenarioB)
     = [Sample.scenarioB_tx]
  /\ Js.includes (description Sample.scenarioB_tx) "DEVRAJ VERMA" = true
  /\ amount Sample.scenarioB_tx = 135%Q
  /\ type Sample.scenarioB_tx = CREDIT
  /\ Backend.normalizeCounterparty (description Sample.scenarioB_tx)
     = Some "DEVRAJ VERMA".
Proof. repeat split; reflexivity. Qed.

(** ** The categorizer *)

(** C4: a transaction of type CREDIT is categorized INCOME, whatever its
    description. *)
Theorem categorizeTransaction_credit_income (tx : Transaction) :
  type tx = CREDIT -> category (categorizeTransaction tx) = INCOME.
Proof.
  intros H. unfold categorizeTransaction. rewrite H. reflexivity.
Qed.

Lemma categorizeTransaction_credit_income_witness :
  type Sample.creditSwiggy = CREDIT
  /\ category (categorizeTransaction Sample.creditSwiggy) = INCOME.
Proof.
  split; [reflexivity|].
  apply categorizeTransaction_credit_income. reflexivity.
Defined.

Lemma noKeywordRule_tests (tx : Transaction) :
  noKeywordRule tx ->
  let desc := Js.toLowerCase (description tx) in
  Js.testAny subscriptionWords desc = false
  /\ Js.testAny foodDeliveryWords desc = false
  /\ Js.testAny rentWords desc = false
  /\ Js.testAny groceryWords desc = false
  /\ Js.testAny shoppingWords desc = false
  /\ Js.testAny transportWords desc = false
  /\ Js.testAny utilityWords desc = false
  /\ Js.testAny bankFeeWords desc = false
  /\ Js.testAny transferWords desc = false.
Proof.
  unfold noKeywordRule, keywordRules. intros H.
  repeat match goal with
         | H : Forall _ (_ :: _) |- _ => inversion H; subst; clear H
         end.
  simpl in *. repeat split; assumption.
Qed.

(** C8, as the code has it: a DEBIT transaction whose description matches
    none of the keyword rules is returned unchanged, so it keeps the
    category it came with; that category is OTHER for every transaction
    that comes from [mapRowToTransaction]. *)
Theorem categorizeTransaction_default (tx : Transaction) :
  type tx = DEBIT -> noKeywordRule tx ->
  categorizeTransaction tx = tx
  /\ (forall env row,
        mapRowToTransaction env row = Some tx ->
        category (categorizeTransaction tx) = OTHER).
Proof.
  intros Hty Hno.
  assert (Hid : categorizeTransaction tx = tx).
  { destruct (noKeywordRule_tests tx Hno)
      as (H2 & H3 & H4 & H5 & H6 & H7 & H8 & H9 & H10).
    cbv zeta in *. unfold categorizeTransaction. cbv zeta.
    rewrite Hty, H2, H3, H4, H5, H6, H7, H8, H9, H10. reflexivity. }
  split; [exact Hid|].
  intros env row Hmap. rewrite Hid.
  destruct (mapRowToTransaction_Some env row tx Hmap) as (q & _ & _ & ->).
  reflexivity.
Qed.

Lemma noKeywordRule_unmatchedRent :
  noKeywordRule Sample.unmatchedRent.
Proof. repeat constructor. Qed.

Lemma categorizeTransaction_default_witness :
  type Sample.unmatchedRent = DEBIT
  /\ noKeywordRule Sample.unmatchedRent
  /\ categorizeTransaction Sample.unmatchedRent = Sample.unmatchedRent.
Proof.
  split; [reflexivity|]. split; [exact noKeywordRule_unmatchedRent|].
  exact (proj1 (categorizeTransaction_default Sample.unmatchedRent
                  eq_refl noKeywordRule_unmatchedRent)).
Defined.

(** C8 as stated fails: a DEBIT transaction that no keyword rule matches
    and that comes with category RENT leaves with category RENT. *)
Lemma categorizeTransaction_default_not_always_OTHER :
  ~ (forall tx : Transaction,
       type tx = DEBIT -> noKeywordRule tx ->
       category (categorizeTransaction tx) = OTHER).
Proof.
  intros H.
  specialize (H Sample.unmatchedRent eq_refl noKeywordRule_unmatchedRent).
  discriminate H.
Qed.

(** ** The aggregator *)

Lemma allCategories_complete (c : Category) : In c allCategories.
Proof. destruct c; simpl; tauto. Qed.

Lemma allCategories_NoDup : NoDup allCategories.
Proof.
  unfold allCategories.
  repeat (constructor; [simpl; intuition discriminate|]).
  constructor.
Qed.

Lemma Category_eqb_eq (a b : Category) : Category_eqb a b = true <-> a = b.
Proof.
  unfold Category_eqb. destruct (Category_eq_dec a b); split; congruence.
Qed.

Lemma addTo_keys (c : Category) (a : Q) (m : list (Category * Q)) :
  map fst (addTo c a m) = map fst m.
Proof.
  unfold addTo. rewrite map_map. apply map_ext.
  intros [k v]. simpl. now destruct (Category_eqb k c).
Qed.

Lemma addTo_absent (c : Category) (a : Q) (m : list (Category * Q)) :
  ~ In c (map fst m) -> addTo c a m = m.
Proof.
  induction m as [|[k v] m IH]; simpl; intros H; [reflexivity|].
  destruct (Category_eqb k c) eqn:E.
  - apply Category_eqb_eq in E. tauto.
  - f_equal. apply IH. tauto.
Qed.

(** [+=] on a key the object has once adds to the sum of the values. *)
Lemma sumValues_addTo (c : Category) (a : Q) (m : list (Category * Q)) :
  NoDup (map fst m) -> In c (map fst m) ->
  (sumValues (addTo c a m) == sumValues m + a)%Q.
Proof.
  induction m as [|[k v] m IH]; simpl; intros Hnd Hin; [contradiction|].
  inversion Hnd as [|? ? Hk Hnd']; subst.
  destruct (Category_eqb k c) eqn:E; simpl.
  - apply Category_eqb_eq in E. subst k.
    fold (addTo c a m). rewrite (addTo_absent c a m Hk). ring.
  - fold (addTo c a m).
    destruct Hin as [->|Hin].
    + assert (Category_eqb c c = true) by now apply Category_eqb_eq.
      congruence.
    + rewrite (IH Hnd' Hin). ring.
Qed.

Lemma summaryStep_balanced (acc : Totals) (tx : Transaction) :
  balanced acc -> balanced (summaryStep acc tx).
Proof.
  intros [Hk Hs]. split; simpl.
  - now rewrite addTo_keys.
  - rewrite sumValues_addTo.
    + rewrite Hs. destruct (type tx); ring.
    + rewrite Hk. apply allCategories_NoDup.
    + rewrite Hk. apply allCategories_complete.
Qed.

Lemma fold_summaryStep_balanced (txs : list Transaction) (acc : Totals) :
  balanced acc -> balanced (fold_left summaryStep txs acc).
Proof.
  revert acc. induction txs as [|tx txs IH]; simpl; intros acc H; [exact H|].
  apply IH. now apply summaryStep_balanced.
Qed.

(** Over the exact rationals, the values of [byCategory], which has the
    11 categories as its keys, add up to [totalIncome + totalSpending],
    and [net] is [totalIncome - totalSpending]. *)
Lemma computeSummary_partition (transactions : list Transaction) :
  let s := computeSummary transactions in
  map fst (byCategory s) = allCategories
  /\ (sumValues (byCategory s) == totalIncome s + totalSpending s)%Q
  /\ net s = (totalIncome s - totalSpending s)%Q.
Proof.
  simpl.
  assert (H : balanced
                (fold_left summaryStep transactions
                   {| accIncome := 0; accSpending := 0;
                      accByCategory := zeroByCategory |})).
  { apply fold_summaryStep_balanced. split; reflexivity. }
  destruct H as [Hk Hs]. repeat split; assumption.
Qed.

(** The keys never change, so [lookup] never takes its default. *)
Lemma lookup_defined (c : Category) (m : list (Category * Q)) :
  map fst m = allCategories ->
  exists v, find (fun kv => Category_eqb (fst kv) c) m = Some (c, v).
Proof.
  intros Hk.
  assert (Hin : In c (map fst m)) by (rewrite Hk; apply allCategories_complete).
  clear Hk. induction m as [|[k v] m IH]; simpl in *; [contradiction|].
  destruct (Category_eqb k c) eqn:E.
  - apply Category_eqb_eq in E. subst. now exists v.
  - destruct Hin as [->|Hin]; [|now apply IH].
    assert (Category_eqb c c = true) by now apply Category_eqb_eq.
    congruence.
Qed.

(** ** The route *)

Lemma filterMap_all_None {A B} (f : A -> option B) (xs : list A) :
  Forall (fun x => f x = None) xs -> filterMap f xs = [].
Proof.
  induction 1 as [|x xs Hx _ IH]; simpl; [reflexivity|].
  now rewrite Hx.
Qed.

(** C7, as the code has it: when the extraction gives no row, the route
    answers 400 with the "no transactions" message and no summary; the
    route answers with a summary exactly when the extraction gives at
    least one row, and the answer is then the analysis of these rows;
    when the mapper rejects all of the extracted rows, that answer is
    the empty list of transactions with the summary of the empty list. *)
Theorem POST_no_rows (env : Env) (file : File) :
  (extractRows env file = Some [] ->
   POST env (FormData (Some file)) = ErrorResponse 400 msgNoTransactions
   /\ summaryOf (POST env (FormData (Some file))) = None)
  /\ (forall txs s,
        POST env (FormData (Some file)) = Analysis txs s <->
        exists row rows,
          extractRows env file = Some (row :: rows)
          /\ txs = transactionsOf env (row :: rows)
          /\ s = computeSummary txs)
  /\ (forall row rows,
        extractRows env file = Some (row :: rows) ->
        Forall (fun r => mapRowToTransaction env r = None) (row :: rows) ->
        POST env (FormData (Some file)) = Analysis [] (computeSummary [])).
Proof.
  split; [|split].
  - intros H. simpl. rewrite H. split; reflexivity.
  - intros txs s. cbn [POST]. split.
    + destruct (extractRows env file) as [[|row rows]|]; cbn [analyzeRows];
        try discriminate.
      intros [= <- <-]. exists row, rows. repeat split; reflexivity.
    + intros (row & rows & -> & -> & ->). reflexivity.
  - intros row rows Hrows Hall. cbn [POST]. rewrite Hrows.
    cbn [analyzeRows]. unfold transactionsOf.
    now rewrite (filterMap_all_None _ _ Hall).
Qed.

Lemma POST_no_rows_witness :
  extractRows (Sample.env "2025-11-02") Sample.headerOnlyCsv = Some []
  /\ POST (Sample.env "2025-11-02") (FormData (Some Sample.headerOnlyCsv))
     = ErrorResponse 400 msgNoTransactions.
Proof.
  assert (H : extractRows (Sample.env "2025-11-02") Sample.headerOnlyCsv
              = Some []) by reflexivity.
  split; [exact H|].
  exact (proj1 (proj1 (POST_no_rows _ _) H)).
Defined.

(** C7 as stated fails: a CSV file whose only row has amount 0 gives one
    extracted row and no transaction, and the route answers with an
    empty list of transactions and the summary of the empty list. *)
Lemma POST_all_rows_rejected_succeeds :
  extractRows (Sample.env "2025-11-02") Sample.zeroCsv
  = Some [Sample.zeroCsv_row]
  /\ transactionsOf (Sample.env "2025-11-02") [Sample.zeroCsv_row] = []
  /\ POST (Sample.env "2025-11-02") (FormData (Some Sample.zeroCsv))
     = Analysis [] (computeSummary [])
  /\ (forall status error,
        POST (Sample.env "2025-11-02") (FormData (Some Sample.zeroCsv))
        <> ErrorResponse status error).
Proof.
  repeat split; try reflexivity.
  intros status error. discriminate.
Qed.

(** *** Independence of the clock *)

Lemma mapRowToTransaction_clock (env1 env2 : Env) (row : Row) :
  mapRowToTransaction env2 row
  = option_map (withDate (dateOf env2 row)) (mapRowToTransaction env1 row).
Proof.
  unfold mapRowToTransaction.
  destruct (falsyNumber (Number (cleaned row))); [reflexivity|].
  destruct (Number (cleaned row)); reflexivity.
Qed.

Lemma dateOf_hasDate (env1 env2 : Env) (row : Row) :
  hasDate row -> dateOf env1 row = dateOf env2 row.
Proof.
  unfold hasDate, dateOf. intros H.
  destruct (Row.firstTruthy _ row); [reflexivity | congruence].
Qed.

Lemma withDate_same (tx : Transaction) : withDate (date tx) tx = tx.
Proof. now destruct tx. Qed.

Lemma mapRowToTransaction_dated (env1 env2 : Env) (row : Row) :
  hasDate row -> mapRowToTransaction env1 row = mapRowToTransaction env2 row.
Proof.
  intros H. rewrite (mapRowToTransaction_clock env2 env1 row).
  destruct (mapRowToTransaction env2 row) as [tx|] eqn:E; [|reflexivity].
  simpl. f_equal.
  destruct (mapRowToTransaction_Some env2 row tx E) as (q & _ & _ & ->).
  unfold withDate. simpl. now rewrite (dateOf_hasDate env1 env2 row H).
Qed.

Lemma categorizeTransaction_withDate (d : string) (tx : Transaction) :
  categorizeTransaction (withDate d tx) = withDate d (categorizeTransaction tx).
Proof.
  unfold categorizeTransaction. cbv zeta. simpl.
  repeat match goal with
         | |- context [if ?b then _ else _] => destruct b; [reflexivity|]
         end.
  reflexivity.
Qed.

Lemma summarized_categorize_withDate (d : string) (tx : Transaction) :
  summarized (categorizeTransaction (withDate d tx))
  = summarized (categorizeTransaction tx).
Proof. now rewrite categorizeTransaction_withDate. Qed.

Lemma transactionsOf_summarized (env1 env2 : Env) (rows : list Row) :
  map summarized (transactionsOf env1 rows)
  = map summarized (transactionsOf env2 rows).
Proof.
  unfold transactionsOf.
  induction rows as [|row rows IH]; simpl; [reflexivity|].
  rewrite (mapRowToTransaction_clock env1 env2 row).
  destruct (mapRowToTransaction env1 row) as [tx|]; simpl; [|exact IH].
  now rewrite summarized_categorize_withDate, IH.
Qed.

Lemma transactionsOf_dated (env1 env2 : Env) (rows : list Row) :
  Forall hasDate rows -> transactionsOf env1 rows = transactionsOf env2 rows.
Proof.
  unfold transactionsOf. intros H. f_equal.
  induction H as [|row rows Hrow _ IH]; simpl; [reflexivity|].
  now rewrite (mapRowToTransaction_dated env1 env2 row Hrow), IH.
Qed.

Lemma summaryStep_summarized (acc : Totals) (t1 t2 : Transaction) :
  summarized t1 = summarized t2 -> summaryStep acc t1 = summaryStep acc t2.
Proof.
  unfold summarized, summaryStep. intros [= -> -> ->]. reflexivity.
Qed.

(** [computeSummary] reads the type, the amount and the category of the
    transactions, and nothing else. *)
Lemma computeSummary_summarized (txs1 txs2 : list Transaction) :
  map summarized txs1 = map summarized txs2 ->
  computeSummary txs1 = computeSummary txs2.
Proof.
  intros H. unfold computeSummary.
  assert (E : forall acc,
             fold_left summaryStep txs1 acc = fold_left summaryStep txs2 acc).
  { revert txs2 H. induction txs1 as [|t1 txs1 IH]; intros [|t2 txs2] H acc;
      simpl in *; try discriminate; [reflexivity|].
    assert (Ht : summarized t1 = summarized t2) by congruence.
    assert (Hts : map summarized txs1 = map summarized txs2) by congruence.
    rewrite (summaryStep_summarized acc t1 t2 Ht). now apply IH. }
  now rewrite E.
Qed.

(** C9: the summary of the answer does not depend on the clock at all,
    whatever the request: the only use of the time is the date given to a
    row without a date, and [computeSummary] does not read dates.  When
    every extracted row has a date, two runs on different days give the
    same answer, transactions included. *)
Theorem POST_deterministic
  (day1 day2 : string) (extract : string -> option string) (req : Request) :
  let env1 := {| today := day1; pdfParse := extract |} in
  let env2 := {| today := day2; pdfParse := extract |} in
  summaryOf (POST env1 req) = summaryOf (POST env2 req)
  /\ (allRowsDated env1 req -> POST env1 req = POST env2 req).
Proof.
  intros env1 env2.
  destruct req as [|[file|]]; simpl; try (split; reflexivity).
  assert (Hx : extractRows env2 file = extractRows env1 file) by reflexivity.
  rewrite Hx.
  destruct (extractRows env1 file) as [[|row rows]|]; simpl;
    try (split; reflexivity).
  split.
  - f_equal. apply computeSummary_summarized.
    apply transactionsOf_summarized.
  - intros H. now rewrite (transactionsOf_dated env1 env2 (row :: rows) H).
Qed.

Lemma POST_deterministic_witness :
  allRowsDated (Sample.env "2025-11-02") (FormData (Some Sample.datedCsv))
  /\ POST (Sample.env "2025-11-02") (FormData (Some Sample.datedCsv))
     = POST (Sample.env "2026-01-31") (FormData (Some Sample.datedCsv)).
Proof.
  assert (H : allRowsDated (Sample.env "2025-11-02")
                (FormData (Some Sample.datedCsv))).
  { vm_compute. repeat constructor; discriminate. }
  split; [exact H|].
  exact (proj2 (POST_deterministic "2025-11-02" "2026-01-31"
                  (fun bytes => Some bytes)
                  (FormData (Some Sample.datedCsv))) H).
Defined.

(** Scenario A: the CSV file with the header [Date,Description,Amount,Type]
    and the row [01-10-2025,SWIGGY ORDER,450,Debit] gives one transaction,
    of category FOOD_DELIVERY and amount 450, and 450 under FOOD_DELIVERY
    in [byCategory]. *)
Example scenarioA (day : string) :
  exists summary,
    POST (Sample.env day) (FormData (Some Sample.swiggyCsv))
    = Analysis [withCategory Sample.swiggyTx FOOD_DELIVERY] summary
    /\ lookup FOOD_DELIVERY (byCategory summary) = 450%Q
    /\ foodDelivery (leaks summary) = 450%Q
    /\ totalSpending summary = 450%Q
    /\ totalIncome summary = 0%Q.
Proof. eexists. repeat split; reflexivity. Qed.

(** ** The type the mapper gives *)

(** The type of a mapped row is CREDIT exactly when the lower-cased type
    field contains "cr" or the parsed amount is negative: the sign is
    consulted whether or not the row has a type column. *)
Lemma mapRowToTransaction_type (env : Env) (row : Row) (tx : Transaction) (q : Q) :
  mapRowToTransaction env row = Some tx ->
  Number (cleaned row) = Num q ->
  (type tx = CREDIT <->
   Js.includes (typeField row) "credit" = true
   \/ Js.includes (typeField row) "cr" = true
   \/ (q < 0)%Q).
Proof.
  intros Hmap Hnum.
  destruct (mapRowToTransaction_Some env row tx Hmap) as (q' & Hq' & _ & ->).
  assert (q' = q) by congruence. subst q'. simpl.
  assert (Hlt : Qltb q 0 = true <-> (q < 0)%Q).
  { unfold Qltb. rewrite negb_true_iff. split.
    - intros H. destruct (Qlt_le_dec q 0) as [L|L]; [exact L|].
      apply Qle_bool_iff in L. congruence.
    - intros H. destruct (Qle_bool 0 q) eqn:E; [|reflexivity].
      apply Qle_bool_iff in E. lra. }
  destruct (Js.includes (typeField row) "credit");
    destruct (Js.includes (typeField row) "cr");
    destruct (Qltb q 0); simpl; split; intros H; try tauto;
    try discriminate;
    destruct H as [H|[H|H]]; try discriminate.
  apply Hlt in H. discriminate.
Qed.

(** Without a type column the sign alone decides: negative is CREDIT. *)
Lemma mapRowToTransaction_type_by_sign
  (env : Env) (row : Row) (tx : Transaction) (q : Q) :
  ~ hasTypeColumn row ->
  mapRowToTransaction env row = Some tx ->
  Number (cleaned row) = Num q ->
  (type tx = CREDIT <-> (q < 0)%Q).
Proof.
  intros Hno Hmap Hnum.
  rewrite (mapRowToTransaction_type env row tx q Hmap Hnum).
  assert (E : typeField row = "").
  { unfold typeField, hasTypeColumn in *.
    destruct (Row.firstTruthy _ row); [exfalso; apply Hno; discriminate|].
    reflexivity. }
  rewrite E. simpl. split; [intros [H|[H|H]]; try discriminate; exact H|].
  tauto.
Qed.

(** *** Rows of the PDF extractor *)

Lemma prefix_char (a c : ascii) (s : string) :
  prefix (String a "") (String c s) = Ascii.eqb a c.
Proof.
  cbn [prefix]. destruct (ascii_dec a c) as [->|N].
  - rewrite Ascii.eqb_refl. now destruct s.
  - symmetry. now apply Ascii.eqb_neq.
Qed.

Lemma includes_dash (s : string) :
  Js.includes s "-" = Js.existsChar (Ascii.eqb "-") s.
Proof.
  induction s as [|c s IH]; [reflexivity|].
  cbn [Js.includes Js.existsChar]. now rewrite prefix_char, IH.
Qed.

Lemma filterChar_keeps_dash (s : string) :
  Js.existsChar (Ascii.eqb "-") (Js.filterChar keptInAmount s)
  = Js.existsChar (Ascii.eqb "-") s.
Proof.
  induction s as [|c s IH]; [reflexivity|].
  cbn [Js.filterChar Js.existsChar].
  destruct (keptInAmount c) eqn:K; cbn [Js.existsChar]; rewrite IH;
    [reflexivity|].
  destruct (Ascii.eqb "-" c) eqn:E; [|reflexivity].
  apply Ascii.eqb_eq in E. subst c. discriminate K.
Qed.

Lemma digit_not_dash (c : ascii) :
  Js.isDigit c = true -> Ascii.eqb "-" c = false.
Proof.
  intros H. apply Ascii.eqb_neq. intros <-. discriminate H.
Qed.

Lemma digits_no_dash (s : string) :
  Js.forallChar Js.isDigit s = true ->
  Js.existsChar (Ascii.eqb "-") s = false.
Proof.
  induction s as [|c s IH]; [reflexivity|].
  cbn [Js.forallChar Js.existsChar].
  intros H. apply andb_true_iff in H. destruct H as [Hc Hs].
  now rewrite (digit_not_dash c Hc), IH.
Qed.

Lemma breakDot_dash (s : string) :
  Js.existsChar (Ascii.eqb "-") s
  = Js.existsChar (Ascii.eqb "-") (fst (Num.breakDot s))
    || Js.existsChar (Ascii.eqb "-")
         (match snd (Num.breakDot s) with Some f => f | None => "" end).
Proof.
  induction s as [|c s IH]; [reflexivity|].
  cbn [Num.breakDot Js.existsChar].
  destruct (Ascii.eqb c ".") eqn:E.
  - apply Ascii.eqb_eq in E. subst c. reflexivity.
  - destruct (Num.breakDot s) as [i f]. cbn [fst snd Js.existsChar] in *.
    rewrite IH. now rewrite orb_assoc.
Qed.

Lemma digitsValue_nonneg (s : string) (acc : Z) :
  (0 <= acc)%Z -> Js.forallChar Js.isDigit s = true ->
  (0 <= Num.digitsValue acc s)%Z.
Proof.
  revert acc. induction s as [|c s IH]; intros acc Hacc H; [exact Hacc|].
  cbn [Num.digitsValue Js.forallChar] in *.
  apply andb_true_iff in H. destruct H as [Hc Hs].
  apply IH; [|exact Hs].
  unfold Js.isDigit, Js.between in Hc. apply andb_true_iff in Hc.
  destruct Hc as [Hlo _]. apply Nat.leb_le in Hlo.
  unfold Num.digitValue. lia.
Qed.

Lemma forallChar_app (p : ascii -> bool) (s t : string) :
  Js.forallChar p (s ++ t) = Js.forallChar p s && Js.forallChar p t.
Proof.
  induction s as [|c s IH]; simpl; [reflexivity|].
  now rewrite IH, andb_assoc.
Qed.

Lemma Qred_nonneg (z : Z) (d : positive) :
  (0 <= z)%Z -> (0 <= Qred (z # d))%Q.
Proof.
  intros H. rewrite Qred_correct. unfold Qle. simpl. lia.
Qed.

(** An unsigned decimal literal has no minus sign and a value that is
    not negative. *)
Lemma unsignedDecimal_Some (s : string) (q : Q) :
  Num.unsignedDecimal s = Some q ->
  Js.existsChar (Ascii.eqb "-") s = false /\ (0 <= q)%Q.
Proof.
  unfold Num.unsignedDecimal. rewrite (breakDot_dash s).
  destruct (Num.breakDot s) as [ip fo]. cbn [fst snd].
  set (fp := match fo with Some f => f | None => "" end).
  destruct (Js.forallChar Js.isDigit ip) eqn:Hi; [|discriminate].
  destruct (Js.forallChar Js.isDigit fp) eqn:Hf; [|discriminate].
  cbn [andb].
  destruct (Js.truthy ip || Js.truthy fp); [|discriminate].
  intros [= <-]. split.
  - now rewrite (digits_no_dash ip Hi), (digits_no_dash fp Hf).
  - apply Qred_nonneg.
    apply digitsValue_nonneg; [lia|].
    now rewrite forallChar_app, Hi, Hf.
Qed.

(** A string with a minus sign that [Number] accepts is not positive. *)
Lemma Number_with_dash (s : string) (q : Q) :
  Js.existsChar (Ascii.eqb "-") s = true ->
  Number s = Num q -> (q <= 0)%Q.
Proof.
  destruct s as [|c s]; [discriminate|].
  intros Hdash. cbn [Number].
  destruct (Ascii.eqb c "-") eqn:E.
  - destruct (Num.unsignedDecimal s) as [q'|] eqn:U; [|discriminate].
    intros H. assert (Hq : q = Qred (- q')) by congruence.
    destruct (unsignedDecimal_Some s q' U) as [_ Hq'].
    rewrite Hq, Qred_correct. lra.
  - destruct (Num.unsignedDecimal (String c s)) as [q'|] eqn:U;
      [|discriminate].
    destruct (unsignedDecimal_Some _ q' U) as [Hno _].
    congruence.
Qed.

(** The shape of the rows the PDF extractor pushes. *)
Lemma pdfLineToRow_Some (line : string) (row : Row) :
  pdfLineToRow line = Some row ->
  exists d desc tok bal,
    row = [("Date", d); ("Description", desc); ("Amount", tok);
           ("Balance", bal);
           ("Credit/Debit",
            if Js.includes tok "-" then "Debit" else "Credit")].
Proof.
  unfold pdfLineToRow. cbv zeta.
  repeat match goal with
         | |- (if ?b then None else _) = Some _ -> _ =>
             destruct b; [discriminate|]
         end.
  intros [= <-]. do 4 eexists. f_equal. f_equal. f_equal. f_equal. f_equal.
  f_equal. now destruct (Js.includes _ "-").
Qed.

(** The mapper turns every row of the PDF extractor into a CREDIT: a row
    marked Credit by its type column, a row marked Debit by its negative
    amount. *)
Lemma mapRowToTransaction_pdf_row
  (env : Env) (line : string) (row : Row) (tx : Transaction) :
  pdfLineToRow line = Some row ->
  mapRowToTransaction env row = Some tx ->
  type tx = CREDIT.
Proof.
  intros Hrow Hmap.
  destruct (pdfLineToRow_Some line row Hrow) as (d & desc & tok & bal & ->).
  destruct (mapRowToTransaction_Some env _ tx Hmap) as (q & Hnum & Hq & _).
  apply (mapRowToTransaction_type env _ tx q Hmap Hnum).
  destruct (Js.includes tok "-") eqn:Hdash.
  - right. right.
    destruct tok as [|c t]; [discriminate Hdash|].
    assert (Hle : (q <= 0)%Q).
    { apply (Number_with_dash (Js.filterChar keptInAmount (String c t))).
      - now rewrite filterChar_keeps_dash, <- includes_dash.
      - exact Hnum. }
    destruct (Qle_lt_or_eq _ _ Hle) as [L|E]; [exact L | contradiction].
  - left. reflexivity.
Qed.

Lemma Forall_filterMap {A B} (f : A -> option B) (P : B -> Prop) (xs : list A) :
  (forall x y, In x xs -> f x = Some y -> P y) -> Forall P (filterMap f xs).
Proof.
  induction xs as [|x xs IH]; simpl; intros H; [constructor|].
  destruct (f x) as [y|] eqn:E.
  - constructor; [eapply H; eauto | apply IH; eauto].
  - apply IH; eauto.
Qed.

Lemma In_filterMap {A B} (f : A -> option B) (xs : list A) (y : B) :
  In y (filterMap f xs) -> exists x, In x xs /\ f x = Some y.
Proof.
  induction xs as [|x xs IH]; simpl; [contradiction|].
  destruct (f x) as [y'|] eqn:E.
  - intros [<-|H]; [eauto|]. destruct (IH H) as (x' & ? & ?). eauto.
  - intros H. destruct (IH H) as (x' & ? & ?). eauto.
Qed.

(** Whatever the text of the PDF, every transaction the route derives
    from it is a CREDIT and is categorized INCOME: no row the extractor
    marks Debit stays a DEBIT. *)
Lemma pdf_transactions_all_credit (env : Env) (text : string) :
  Forall (fun tx => type tx = CREDIT /\ category tx = INCOME)
         (transactionsOf env (parsePdfTextToRows text)).
Proof.
  unfold transactionsOf. rewrite Forall_map.
  apply Forall_filterMap. intros row tx Hin Hmap.
  unfold parsePdfTextToRows in Hin.
  destruct (In_filterMap _ _ _ Hin) as (line & _ & Hline).
  assert (Hty : type tx = CREDIT)
    by exact (mapRowToTransaction_pdf_row env line row tx Hline Hmap).
  split.
  - unfold categorizeTransaction. rewrite Hty. exact Hty.
  - unfold categorizeTransaction. now rewrite Hty.
Qed.

(** * Further properties of the code *)

(** ** The categorizer as a rule table *)

(** The chain of [if] statements is the search of the first matching row
    of [keywordRules]. *)
Lemma categorizeTransaction_table (tx : Transaction) :
  categorizeTransaction tx
  = if TransactionType_eqb (type tx) CREDIT then withCategory tx INCOME
    else match firstRule (Js.toLowerCase (description tx)) with
         | Some c => withCategory tx c
         | None => tx
         end.
Proof.
  unfold categorizeTransaction, firstRule, keywordRules. cbv zeta.
  cbn [find fst snd option_map].
  destruct (TransactionType_eqb (type tx) CREDIT); [reflexivity|].
  repeat match goal with
         | |- context [Js.testAny ?w ?d] =>
             destruct (Js.testAny w d); [reflexivity|]
         end.
  reflexivity.
Qed.

Lemma find_first_match {A} (p : A -> bool) (before after : list A) (x : A) :
  Forall (fun y => p y = false) before -> p x = true ->
  find p (before ++ x :: after) = Some x.
Proof.
  induction 1 as [|y before Hy _ IH]; simpl; intros Hx.
  - now rewrite Hx.
  - rewrite Hy. now apply IH.
Qed.

(** X9.  First match wins: a DEBIT transaction gets the category of the first
    rule, in the order of the source, one of whose keywords occurs in the
    lower-cased description, whatever the later rules would say. *)
Theorem categorizeTransaction_first_match
  (tx : Transaction) (before after : list (list string * Category))
  (words : list string) (c : Category) :
  type tx = DEBIT ->
  keywordRules = before ++ (words, c) :: after ->
  Forall
    (fun rule =>
       Js.testAny (fst rule) (Js.toLowerCase (description tx)) = false)
    before ->
  Js.testAny words (Js.toLowerCase (description tx)) = true ->
  categorizeTransaction tx = withCategory tx c.
Proof.
  intros Hty Hrules Hbefore Hwords.
  rewrite categorizeTransaction_table, Hty. cbn [TransactionType_eqb].
  unfold firstRule. rewrite Hrules.
  rewrite (find_first_match
             (fun rule =>
                Js.testAny (fst rule) (Js.toLowerCase (description tx)))
             before after (words, c) Hbefore Hwords).
  reflexivity.
Qed.

Lemma categorizeTransaction_first_match_witness :
  type Sample.zomatoRent = DEBIT
  /\ Js.testAny rentWords (Js.toLowerCase (description Sample.zomatoRent))
     = true
  /\ categorizeTransaction Sample.zomatoRent
     = withCategory Sample.zomatoRent FOOD_DELIVERY.
Proof.
  split; [reflexivity|]. split; [reflexivity|].
  apply (categorizeTransaction_first_match Sample.zomatoRent
           [(subscriptionWords, SUBSCRIPTION)]
           [(rentWords, RENT); (groceryWords, GROCERIES);
            (shoppingWords, SHOPPING); (transportWords, TRANSPORT);
            (utilityWords, UTILITIES); (bankFeeWords, BANK_FEES);
            (transferWords, TRANSFER)]
           foodDeliveryWords FOOD_DELIVERY).
  - reflexivity.
  - reflexivity.
  - repeat constructor.
  - reflexivity.
Defined.

(** X10.  The categorizer changes the category and nothing else. *)
Theorem categorizeTransaction_frame (tx : Transaction) :
  categorizeTransaction tx
  = withCategory tx (category (categorizeTransaction tx)).
Proof.
  rewrite categorizeTransaction_table.
  destruct (TransactionType_eqb (type tx) CREDIT); [reflexivity|].
  destruct (firstRule (Js.toLowerCase (description tx))); [reflexivity|].
  now destruct tx.
Qed.

(** X11.  Categorizing twice is categorizing once. *)
Theorem categorizeTransaction_idempotent (tx : Transaction) :
  categorizeTransaction (categorizeTransaction tx) = categorizeTransaction tx.
Proof.
  rewrite (categorizeTransaction_table tx).
  destruct (TransactionType_eqb (type tx) CREDIT) eqn:Hty.
  - rewrite categorizeTransaction_table. cbn [type withCategory].
    now rewrite Hty.
  - destruct (firstRule (Js.toLowerCase (description tx))) as [c|] eqn:Hrule.
    + rewrite categorizeTransaction_table.
      cbn [type description withCategory]. now rewrite Hty, Hrule.
    + rewrite categorizeTransaction_table. now rewrite Hty, Hrule.
Qed.

(** No keyword rule gives INCOME. *)
Lemma firstRule_not_INCOME (desc : string) : firstRule desc <> Some INCOME.
Proof.
  unfold firstRule.
  destruct (find _ keywordRules) as [[w c]|] eqn:E; [|discriminate].
  apply find_some in E. destruct E as [Hin _]. simpl.
  intros [= ->]. unfold keywordRules in Hin. simpl in Hin.
  repeat (destruct Hin as [Hin|Hin]; [discriminate Hin|]).
  exact Hin.
Qed.

(** A transaction that does not come in as INCOME leaves as INCOME
    exactly when it is a CREDIT. *)
Lemma categorizeTransaction_INCOME_iff (tx : Transaction) :
  category tx <> INCOME ->
  (category (categorizeTransaction tx) = INCOME <-> type tx = CREDIT).
Proof.
  intros Hcat. rewrite categorizeTransaction_table.
  destruct (type tx) eqn:Hty; cbn [TransactionType_eqb].
  - split; [|discriminate].
    destruct (firstRule (Js.toLowerCase (description tx))) as [c|] eqn:E.
    + cbn [category withCategory]. intros ->.
      now apply firstRule_not_INCOME in E.
    + contradiction.
  - split; reflexivity.
Qed.

(** ** What the summary adds up *)

Lemma Qltb_lt (x y : Q) : Qltb x y = true <-> (x < y)%Q.
Proof.
  unfold Qltb. rewrite negb_true_iff. split.
  - intros H. destruct (Qlt_le_dec x y) as [L|L]; [exact L|].
    apply Qle_bool_iff in L. congruence.
  - intros H. destruct (Qle_bool y x) eqn:E; [|reflexivity].
    apply Qle_bool_iff in E. lra.
Qed.

Lemma Category_eqb_refl (c : Category) : Category_eqb c c = true.
Proof. now apply Category_eqb_eq. Qed.

Lemma Category_eqb_neq (a b : Category) : Category_eqb a b = false <-> a <> b.
Proof.
  unfold Category_eqb. destruct (Category_eq_dec a b); split; congruence.
Qed.

(** [+=] on the key [c'] adds to the value read under [c'] and leaves the
    value read under any other key. *)
Lemma lookup_addTo (c c' : Category) (a : Q) (m : list (Category * Q)) :
  In c (map fst m) ->
  lookup c (addTo c' a m)
  = if Category_eqb c' c then (lookup c m + a)%Q else lookup c m.
Proof.
  unfold lookup.
  induction m as [|[k v] m IH]; cbn [map fst In addTo find snd];
    [contradiction|].
  intros Hin. fold (addTo c' a m).
  destruct (Category_eqb k c') eqn:Ekc'; cbn [fst snd find].
  - apply Category_eqb_eq in Ekc'. subst k.
    destruct (Category_eqb c' c) eqn:E; [reflexivity|].
    apply IH. destruct Hin as [->|Hin]; [|exact Hin].
    now rewrite Category_eqb_refl in E.
  - destruct (Category_eqb k c) eqn:Ekc.
    + apply Category_eqb_eq in Ekc. subst k.
      destruct (Category_eqb c' c) eqn:E; [|reflexivity].
      apply Category_eqb_eq in E. subst c'.
      now rewrite Category_eqb_refl in Ekc'.
    + apply IH. destruct Hin as [->|Hin]; [|exact Hin].
      now rewrite Category_eqb_refl in Ekc.
Qed.

Lemma fold_summaryStep_keys (txs : list Transaction) (acc : Totals) :
  map fst (accByCategory (fold_left summaryStep txs acc))
  = map fst (accByCategory acc).
Proof.
  revert acc. induction txs as [|tx txs IH]; intros acc; simpl;
    [reflexivity|].
  rewrite IH. simpl. apply addTo_keys.
Qed.

Lemma sumAmounts_cons (tx : Transaction) (txs : list Transaction) :
  sumAmounts (tx :: txs) = (amount tx + sumAmounts txs)%Q.
Proof. reflexivity. Qed.

Lemma ofType_cons (ty : TransactionType) (tx : Transaction) (txs : list Transaction) :
  ofType ty (tx :: txs)
  = if TransactionType_eqb (type tx) ty then tx :: ofType ty txs
    else ofType ty txs.
Proof. reflexivity. Qed.

Lemma ofCategory_cons (c : Category) (tx : Transaction) (txs : list Transaction) :
  ofCategory c (tx :: txs)
  = if Category_eqb (category tx) c then tx :: ofCategory c txs
    else ofCategory c txs.
Proof. reflexivity. Qed.

(** What the loop has added to its three variables after [txs]. *)
Lemma fold_summaryStep_sums (c : Category) (txs : list Transaction) (acc : Totals) :
  In c (map fst (accByCategory acc)) ->
  let acc' := fold_left summaryStep txs acc in
  (accIncome acc' == accIncome acc + sumAmounts (ofType CREDIT txs))%Q
  /\ (accSpending acc' == accSpending acc + sumAmounts (ofType DEBIT txs))%Q
  /\ (lookup c (accByCategory acc')
      == lookup c (accByCategory acc) + sumAmounts (ofCategory c txs))%Q.
Proof.
  revert acc. induction txs as [|tx txs IH]; intros acc Hin; cbn zeta.
  - cbn [fold_left ofType ofCategory filter sumAmounts fold_right].
    split; [|split]; ring.
  - cbn [fold_left].
    assert (Hin' : In c (map fst (accByCategory (summaryStep acc tx))))
      by (cbn [summaryStep accByCategory]; now rewrite addTo_keys).
    destruct (IH (summaryStep acc tx) Hin') as (Hi & Hs & Hc).
    rewrite Hi, Hs, Hc.
    cbn [summaryStep accIncome accSpending accByCategory].
    rewrite (lookup_addTo c (category tx) (amount tx) _ Hin).
    rewrite !ofType_cons, ofCategory_cons.
    destruct (type tx); cbn [TransactionType_eqb];
      destruct (Category_eqb (category tx) c);
      rewrite ?sumAmounts_cons; (split; [|split]); ring.
Qed.

Lemma computeSummary_fold_sums (c : Category) (txs : list Transaction) :
  (totalIncome (computeSummary txs) == sumAmounts (ofType CREDIT txs))%Q
  /\ (totalSpending (computeSummary txs) == sumAmounts (ofType DEBIT txs))%Q
  /\ (lookup c (byCategory (computeSummary txs))
      == sumAmounts (ofCategory c txs))%Q.
Proof.
  unfold computeSummary. cbn [totalIncome totalSpending byCategory].
  destruct (fold_summaryStep_sums c txs
              {| accIncome := 0; accSpending := 0;
                 accByCategory := zeroByCategory |})
    as (Hi & Hs & Hc).
  { apply allCategories_complete. }
  cbv zeta in *. cbn [accIncome accSpending accByCategory] in *.
  rewrite Hi, Hs, Hc.
  assert (Hz : lookup c zeroByCategory = 0%Q) by now destruct c.
  rewrite Hz. split; [|split]; ring.
Qed.

(** X12.  What [computeSummary] computes: [totalIncome] is the sum of the CREDIT
    amounts, [totalSpending] the sum of the DEBIT amounts, the value of
    [byCategory] under a category the sum of the amounts of that
    category, and the three leaks the sums of BANK_FEES, SUBSCRIPTION
    and FOOD_DELIVERY. *)
Theorem computeSummary_sums (txs : list Transaction) :
  let s := computeSummary txs in
  (totalIncome s == sumAmounts (ofType CREDIT txs))%Q
  /\ (totalSpending s == sumAmounts (ofType DEBIT txs))%Q
  /\ (forall c, (lookup c (byCategory s) == sumAmounts (ofCategory c txs))%Q)
  /\ (bankFees (leaks s) == sumAmounts (ofCategory BANK_FEES txs))%Q
  /\ (subscriptions (leaks s) == sumAmounts (ofCategory SUBSCRIPTION txs))%Q
  /\ (foodDelivery (leaks s) == sumAmounts (ofCategory FOOD_DELIVERY txs))%Q.
Proof.
  cbv zeta.
  split; [apply (computeSummary_fold_sums INCOME)|].
  split; [apply (computeSummary_fold_sums INCOME)|].
  split; [intros c; apply (computeSummary_fold_sums c)|].
  split; [apply (computeSummary_fold_sums BANK_FEES)|].
  split; [apply (computeSummary_fold_sums SUBSCRIPTION)|].
  apply (computeSummary_fold_sums FOOD_DELIVERY).
Qed.

(** The keys of [byCategory] are the 11 categories, once each. *)
Lemma computeSummary_partition_keys (txs : list Transaction) :
  map fst (byCategory (computeSummary txs)) = allCategories
  /\ NoDup (map fst (byCategory (computeSummary txs))).
Proof.
  assert (H : map fst (byCategory (computeSummary txs)) = allCategories).
  { unfold computeSummary. cbn [byCategory].
    now rewrite fold_summaryStep_keys. }
  split; [exact H|]. rewrite H. apply allCategories_NoDup.
Qed.

(** *** The category chart of the page *)

Lemma lookup_In (c : Category) (a : Q) (m : list (Category * Q)) :
  NoDup (map fst m) -> In (c, a) m -> lookup c m = a.
Proof.
  unfold lookup.
  induction m as [|[k v] m IH]; cbn [map fst In find]; [contradiction|].
  intros Hnd Hin. inversion Hnd as [|? ? Hk Hnd']; subst.
  destruct Hin as [[= -> ->]|Hin].
  - now rewrite Category_eqb_refl.
  - destruct (Category_eqb k c) eqn:E; [|now apply IH].
    apply Category_eqb_eq in E. subst k. exfalso. apply Hk.
    change c with (fst (c, a)). now apply in_map.
Qed.

Lemma In_lookup (c : Category) (m : list (Category * Q)) :
  map fst m = allCategories -> In (c, lookup c m) m.
Proof.
  intros Hk. unfold lookup.
  destruct (lookup_defined c m Hk) as [v Hv]. rewrite Hv.
  apply find_some in Hv. exact (proj1 Hv).
Qed.

Lemma sumAmounts_positive (txs : list Transaction) :
  Forall (fun tx => (0 < amount tx)%Q) txs -> txs <> [] ->
  (0 < sumAmounts txs)%Q.
Proof.
  induction 1 as [|tx txs Htx Hall IH]; [congruence|].
  intros _. rewrite sumAmounts_cons.
  destruct txs as [|tx' txs'].
  - cbn [sumAmounts fold_right]. lra.
  - assert (0 < sumAmounts (tx' :: txs'))%Q by (apply IH; discriminate).
    lra.
Qed.

(** X15.  With positive amounts, as the mapper makes them, the chart shows a
    category exactly when some transaction has it. *)
Theorem categoryChartData_categories (txs : list Transaction) (c : Category) :
  Forall (fun tx => (0 < amount tx)%Q) txs ->
  ((exists a, In (c, a) (Page.categoryChartData (Some (computeSummary txs))))
   <-> (exists tx, In tx txs /\ category tx = c)).
Proof.
  intros Hpos.
  destruct (computeSummary_partition_keys txs) as [Hkeys Hnd].
  destruct (computeSummary_fold_sums c txs) as (_ & _ & Hsum).
  assert (Hfil : Forall (fun tx => (0 < amount tx)%Q) (ofCategory c txs)).
  { rewrite Forall_forall in *. intros tx Htx.
    apply filter_In in Htx. now apply Hpos. }
  cbn [Page.categoryChartData]. split.
  - intros [a Ha]. apply filter_In in Ha. destruct Ha as [Hin Hlt].
    cbn [snd] in Hlt. apply Qltb_lt in Hlt.
    rewrite <- (lookup_In c a _ Hnd Hin), Hsum in Hlt.
    destruct (ofCategory c txs) as [|tx rest] eqn:E.
    + cbn [sumAmounts fold_right] in Hlt. lra.
    + assert (Htx : In tx (ofCategory c txs)) by (rewrite E; now left).
      apply filter_In in Htx. destruct Htx as [Hin' Hc].
      apply Category_eqb_eq in Hc. eauto.
  - intros (tx & Hin & Hc).
    exists (lookup c (byCategory (computeSummary txs))).
    apply filter_In. split; [now apply In_lookup|].
    cbn [snd]. apply Qltb_lt. rewrite Hsum.
    apply sumAmounts_positive; [exact Hfil|].
    intros E.
    assert (Htx : In tx (ofCategory c txs)).
    { apply filter_In. split; [exact Hin|]. now apply Category_eqb_eq. }
    rewrite E in Htx. contradiction.
Qed.

Lemma categoryChartData_categories_witness :
  Forall (fun tx => (0 < amount tx)%Q) Sample.october
  /\ ((exists a,
         In (FOOD_DELIVERY, a)
            (Page.categoryChartData (Some (computeSummary Sample.october))))
      <-> (exists tx, In tx Sample.october /\ category tx = FOOD_DELIVERY)).
Proof.
  assert (H : Forall (fun tx => (0 < amount tx)%Q) Sample.october)
    by (repeat constructor).
  split; [exact H|].
  exact (categoryChartData_categories Sample.october FOOD_DELIVERY H).
Defined.

(** ** What a successful answer of the route holds *)

Lemma categorizeTransaction_fields (tx : Transaction) :
  amount (categorizeTransaction tx) = amount tx
  /\ type (categorizeTransaction tx) = type tx
  /\ raw (categorizeTransaction tx) = raw tx.
Proof.
  rewrite categorizeTransaction_table.
  destruct (TransactionType_eqb (type tx) CREDIT);
    [repeat split; reflexivity|].
  destruct (firstRule (Js.toLowerCase (description tx)));
    repeat split; reflexivity.
Qed.

Lemma transactionsOf_wellFormed (env : Env) (rows : list Row) :
  Forall (wellFormed rows) (transactionsOf env rows).
Proof.
  unfold transactionsOf. rewrite Forall_map.
  apply Forall_filterMap. intros row tx Hin Hmap.
  destruct (categorizeTransaction_fields tx) as (Ha & Hty & Hraw).
  destruct (mapRowToTransaction_Some env row tx Hmap) as (q & _ & Hq & Htx).
  assert (Hcat : category tx = OTHER) by (rewrite Htx; reflexivity).
  assert (Hraw' : raw tx = Some row) by (rewrite Htx; reflexivity).
  assert (Hamt : amount tx = Qabs q) by (rewrite Htx; reflexivity).
  unfold wellFormed. rewrite Ha, Hty, Hraw.
  split; [rewrite Hamt; now apply Qabs_pos_of_nonzero|].
  split.
  - symmetry. apply categorizeTransaction_INCOME_iff.
    rewrite Hcat. discriminate.
  - exists row. split; assumption.
Qed.

Lemma filterMap_length {A B} (f : A -> option B) (xs : list A) :
  (List.length (filterMap f xs) <= List.length xs)%nat.
Proof.
  induction xs as [|x xs IH]; simpl; [lia|].
  destruct (f x); simpl; lia.
Qed.

(** X16.  An answer with a summary comes from a file with rows, has at most
    one transaction per row, and every transaction in it has a positive
    amount, the category INCOME exactly when it is a CREDIT, and one of
    the extracted rows as its [raw]; the summary is the one of these
    transactions. *)
Theorem POST_success (env : Env) (req : Request)
  (txs : list Transaction) (s : AnalysisSummary) :
  POST env req = Analysis txs s ->
  exists file rows,
    req = FormData (Some file)
    /\ extractRows env file = Some rows
    /\ rows <> []
    /\ (List.length txs <= List.length rows)%nat
    /\ Forall (wellFormed rows) txs
    /\ s = computeSummary txs.
Proof.
  destruct req as [|[file|]]; cbn [POST]; try discriminate.
  destruct (extractRows env file) as [[|row rows]|] eqn:E; cbn [analyzeRows];
    try discriminate.
  intros [= <- <-]. exists file, (row :: rows).
  split; [reflexivity|]. split; [exact E|].
  split; [intros E'; discriminate E'|].
  split; [unfold transactionsOf; rewrite length_map; apply filterMap_length|].
  split; [apply transactionsOf_wellFormed | reflexivity].
Qed.

Lemma POST_success_witness :
  exists txs s,
    POST (Sample.env "2025-11-02") (FormData (Some Sample.datedCsv))
    = Analysis txs s
    /\ Forall (fun tx => (0 < amount tx)%Q) txs.
Proof.
  eexists. eexists.
  assert (H : POST (Sample.env "2025-11-02") (FormData (Some Sample.datedCsv))
              = Analysis
                  (transactionsOf (Sample.env "2025-11-02")
                     (parseCsv (file_content Sample.datedCsv)))
                  (computeSummary
                     (transactionsOf (Sample.env "2025-11-02")
                        (parseCsv (file_content Sample.datedCsv)))))
    by (vm_compute; reflexivity).
  split; [exact H|].
  destruct (POST_success _ _ _ _ H) as (file & rows & _ & _ & _ & _ & Hwf & _).
  eapply Forall_impl; [|exact Hwf]. intros tx Htx. exact (proj1 Htx).
Defined.

(** ** The type column and the sign *)

Lemma prefix_shorter (a b t : string) :
  prefix (a ++ b) t = true -> prefix a t = true.
Proof.
  revert t. induction a as [|c a IH]; intros t H.
  - now destruct t.
  - destruct t as [|d t]; [discriminate H|].
    cbn [append prefix] in *.
    destruct (ascii_dec c d); [now apply IH | discriminate H].
Qed.

Lemma includes_shorter (s a b : string) :
  Js.includes s (a ++ b) = true -> Js.includes s a = true.
Proof.
  induction s as [|c s IH]; cbn [Js.includes]; intros H.
  - now apply prefix_shorter with b.
  - apply orb_true_iff in H. apply orb_true_iff.
    destruct H as [H|H]; [left; now apply prefix_shorter with b|].
    right. now apply IH.
Qed.

(** X7.  The test for "credit" never decides: a field that contains "credit"
    contains "cr".  So a mapped row is a CREDIT exactly when its
    lower-cased type field contains "cr" or its parsed amount is
    negative, and its amount is the absolute value of the parsed one. *)
Theorem mapRowToTransaction_credit_iff
  (env : Env) (row : Row) (tx : Transaction) :
  mapRowToTransaction env row = Some tx ->
  exists q,
    Number (cleaned row) = Num q
    /\ amount tx = Qabs q
    /\ (type tx = CREDIT <->
        Js.includes (typeField row) "cr" = true \/ (q < 0)%Q).
Proof.
  intros Hmap.
  destruct (mapRowToTransaction_Some env row tx Hmap) as (q & Hnum & _ & Htx).
  exists q. split; [exact Hnum|]. split; [now rewrite Htx|].
  rewrite (mapRowToTransaction_type env row tx q Hmap Hnum).
  split.
  - intros [H|[H|H]]; [left|now left|now right].
    now apply (includes_shorter _ "cr" "edit").
  - intros [H|H]; [right; now left | right; now right].
Qed.

Lemma mapRowToTransaction_credit_iff_witness :
  mapRowToTransaction (Sample.env "2025-11-02") Sample.swiggyRow
  = Some Sample.swiggyTx
  /\ exists q,
       Number (cleaned Sample.swiggyRow) = Num q
       /\ amount Sample.swiggyTx = Qabs q
       /\ (type Sample.swiggyTx = CREDIT <->
           Js.includes (typeField Sample.swiggyRow) "cr" = true \/ (q < 0)%Q).
Proof.
  assert (H : mapRowToTransaction (Sample.env "2025-11-02") Sample.swiggyRow
              = Some Sample.swiggyTx) by reflexivity.
  split; [exact H|].
  exact (mapRowToTransaction_credit_iff _ _ _ H).
Defined.

(** X8.  A minus sign anywhere in the amount text makes the row a CREDIT, if
    the row is mapped at all, whatever its type column says: the cleaned
    text keeps the sign, and [Number] accepts it only in front. *)
Theorem mapRowToTransaction_minus_sign
  (env : Env) (row : Row) (tx : Transaction) :
  Js.includes (amountStr row) "-" = true ->
  mapRowToTransaction env row = Some tx ->
  type tx = CREDIT.
Proof.
  intros Hdash Hmap.
  destruct (mapRowToTransaction_Some env row tx Hmap) as (q & Hnum & Hq & _).
  apply (mapRowToTransaction_type env row tx q Hmap Hnum).
  right. right.
  assert (Hle : (q <= 0)%Q).
  { apply (Number_with_dash (cleaned row)); [|exact Hnum].
    unfold cleaned. now rewrite filterChar_keeps_dash, <- includes_dash. }
  destruct (Qle_lt_or_eq _ _ Hle) as [L|E]; [exact L | contradiction].
Qed.

Lemma mapRowToTransaction_minus_sign_witness :
  Js.includes (amountStr Sample.dashedAmountRow) "-" = true
  /\ typeField Sample.dashedAmountRow = "dr"
  /\ option_map type
       (mapRowToTransaction (Sample.env "2025-11-02") Sample.dashedAmountRow)
     = Some CREDIT.
Proof.
  assert (Hd : Js.includes (amountStr Sample.dashedAmountRow) "-" = true)
    by reflexivity.
  split; [exact Hd|]. split; [reflexivity|].
  destruct (mapRowToTransaction (Sample.env "2025-11-02")
              Sample.dashedAmountRow) as [tx|] eqn:E.
  - cbn [option_map]. f_equal.
    exact (mapRowToTransaction_minus_sign
             (Sample.env "2025-11-02") Sample.dashedAmountRow tx Hd E).
  - vm_compute in E. discriminate E.
Defined.

(** ** The PDF extractor *)

Lemma lastChar_app (s t : string) :
  lastChar (s ++ t)
  = match lastChar t with
    | Some c => Some c
    | None => lastChar s
    end.
Proof.
  induction s as [|c s IH]; cbn [append lastChar].
  - now destruct (lastChar t).
  - rewrite IH. now destruct (lastChar t).
Qed.

Lemma lastChar_existsChar (p : ascii -> bool) (s : string) (c : ascii) :
  lastChar s = Some c -> p c = true -> Js.existsChar p s = true.
Proof.
  induction s as [|d s IH]; cbn [lastChar Js.existsChar]; [discriminate|].
  intros H Hp. destruct (lastChar s) as [e|].
  - rewrite (IH H Hp). apply orb_true_r.
  - injection H as ->. now rewrite Hp.
Qed.

(** A string that matches a sequence of classes ends with a code unit of
    the last class. *)
Lemma matchClasses_lastChar (classes : list (ascii -> bool)) (s : string) :
  classes <> [] -> Js.matchClasses classes s = true ->
  exists c, lastChar s = Some c /\ last classes (fun _ => false) c = true.
Proof.
  revert s. induction classes as [|p classes IH]; intros s Hne H;
    [congruence|].
  destruct s as [|c s]; [discriminate H|].
  cbn [Js.matchClasses] in H. apply andb_true_iff in H.
  destruct H as [Hp Hrest].
  destruct classes as [|p' classes'].
  - destruct s; [|discriminate Hrest]. exists c. now split.
  - destruct (IH s) as (d & Hd & Hlast); [discriminate | exact Hrest |].
    exists d. split; [|exact Hlast].
    cbn [lastChar]. now rewrite Hd.
Qed.

(** In a line whose first three tokens make a date, the first and the
    third token contain a digit. *)
Lemma date_tokens_numeric (p0 p1 p2 : string) :
  Js.matchClasses dateRegex (Js.join " " [p0; p1; p2]) = true ->
  Js.existsChar Js.isDigit p0 = true /\ Js.existsChar Js.isDigit p2 = true.
Proof.
  intros H. split.
  - destruct p0 as [|c p0]; [discriminate H|].
    cbn [Js.join String.concat append dateRegex Js.matchClasses] in H.
    apply andb_true_iff in H. cbn [Js.existsChar]. now rewrite (proj1 H).
  - destruct (matchClasses_lastChar dateRegex _ ltac:(discriminate) H)
      as (c & Hc & Hdigit).
    change (last dateRegex (fun _ => false)) with Js.isDigit in Hdigit.
    cbn [Js.join String.concat] in Hc.
    rewrite lastChar_app in Hc.
    change (" " ++ p1 ++ " " ++ p2)%string
      with (String " " (p1 ++ String " " p2)%string) in Hc.
    cbn [lastChar] in Hc. rewrite lastChar_app in Hc. cbn [lastChar] in Hc.
    destruct (lastChar p2) as [d|] eqn:E.
    + injection Hc as ->. now apply lastChar_existsChar with c.
    + injection Hc as <-. discriminate Hdigit.
Qed.

(** So the test on the number of numeric tokens never fires. *)
Lemma numericIdx_at_least_two (parts : list string) :
  (5 <= List.length parts)%nat ->
  Js.matchClasses dateRegex (Js.join " " (Js.slice parts 0 3)) = true ->
  (2 <= List.length (numericIdx parts))%nat.
Proof.
  destruct parts as [|p0 [|p1 [|p2 rest]]]; cbn [List.length]; try lia.
  intros _ H.
  change (Js.slice (p0 :: p1 :: p2 :: rest) 0 3) with [p0; p1; p2] in H.
  destruct (date_tokens_numeric p0 p1 p2 H) as [H0 H2].
  unfold numericIdx, indexed. cbn [indexed_from filter snd].
  rewrite H0, H2.
  destruct (Js.existsChar Js.isDigit p1); cbn [map List.length]; lia.
Qed.

(** X3.  A line gives no row exactly when it is a header line, has fewer
    than five tokens, or does not start with a date: a line that passes
    these three tests always gives a row, and the test [numericIdx.length
    < 2] rejects nothing. *)
Theorem pdfLineToRow_None (line : string) :
  pdfLineToRow line = None <->
  isHeaderLine (Js.toLowerCase line) = true
  \/ (List.length (Js.splitSpaces line) < 5)%nat
  \/ Js.matchClasses dateRegex
       (Js.join " " (Js.slice (Js.splitSpaces line) 0 3)) = false.
Proof.
  unfold pdfLineToRow. cbv zeta.
  destruct (isHeaderLine (Js.toLowerCase line)) eqn:H1; [tauto|].
  destruct (List.length (Js.splitSpaces line) <? 5)%nat eqn:H2.
  - apply Nat.ltb_lt in H2. tauto.
  - apply Nat.ltb_ge in H2.
    destruct (Js.matchClasses dateRegex _) eqn:H3; cbn [negb]; [|tauto].
    pose proof (numericIdx_at_least_two _ H2 H3) as H4.
    apply Nat.ltb_ge in H4. rewrite H4.
    split; [discriminate|].
    intros [H|[H|H]]; [discriminate H | lia | discriminate H].
Qed.

Lemma indexed_from_In {A} (k i : nat) (x d : A) (xs : list A) :
  In (i, x) (indexed_from k xs) -> (k <= i)%nat /\ nth (i - k) xs d = x.
Proof.
  revert k. induction xs as [|y xs IH]; intros k; cbn [indexed_from In];
    [contradiction|].
  intros [[= -> ->]|H].
  - split; [lia|]. now rewrite Nat.sub_diag.
  - destruct (IH (S k) H) as [Hle Hnth]. split; [lia|].
    replace (i - k)%nat with (S (i - S k)) by lia. exact Hnth.
Qed.

(** The indices [numericIdx] collects are indices of tokens with a digit. *)
Lemma numericIdx_digit (parts : list string) (i : nat) :
  In i (numericIdx parts) ->
  Js.existsChar Js.isDigit (nth i parts "") = true.
Proof.
  unfold numericIdx, indexed. intros H.
  apply in_map_iff in H. destruct H as ([j x] & Hj & Hin).
  cbn [fst] in Hj. subst j.
  apply filter_In in Hin. destruct Hin as [Hin Hdigit].
  destruct (indexed_from_In 0 i x "" parts Hin) as [_ Hnth].
  rewrite Nat.sub_0_r in Hnth. now rewrite Hnth.
Qed.

Lemma truthy_nonempty (s : string) : Js.truthy s = true -> s <> "".
Proof. intros H ->. discriminate H. Qed.

Lemma pdfLineToRow_row (line : string) (row : Row) :
  pdfLineToRow line = Some row ->
  exists d desc tok bal,
    row = [("Date", d); ("Description", desc); ("Amount", tok);
           ("Balance", bal);
           ("Credit/Debit",
            if Js.includes tok "-" then "Debit" else "Credit")]
    /\ Js.matchClasses dateRegex d = true
    /\ desc <> ""
    /\ Js.existsChar Js.isDigit tok = true
    /\ Js.existsChar Js.isDigit bal = true.
Proof.
  unfold pdfLineToRow. cbv zeta.
  destruct (isHeaderLine (Js.toLowerCase line)); [discriminate|].
  destruct (List.length (Js.splitSpaces line) <? 5)%nat; [discriminate|].
  destruct (Js.matchClasses dateRegex _) eqn:Hdate; cbn [negb];
    [|discriminate].
  destruct (List.length (numericIdx (Js.splitSpaces line)) <? 2)%nat eqn:Hlen;
    [discriminate|].
  apply Nat.ltb_ge in Hlen.
  intros [= <-]. do 4 eexists.
  split; [|split; [exact Hdate|split; [|split]]].
  - do 4 f_equal. f_equal. f_equal.
    now destruct (Js.includes _ "-").
  - destruct (Js.truthy (Js.join " " _)) eqn:E; [|discriminate].
    now apply truthy_nonempty.
  - apply numericIdx_digit. apply nth_In. lia.
  - apply numericIdx_digit. apply nth_In. lia.
Qed.

(** X4.  Every row of the PDF extractor has the five keys Date, Description,
    Amount, Balance and Credit/Debit, in this order: a date of the form
    the regular expression asks for, a description that is not empty, an
    amount and a balance with a digit in them, and Debit as its type
    exactly when the amount has a minus sign. *)
Theorem parsePdfTextToRows_rows (text : string) :
  Forall
    (fun row =>
       keys row = pdfKeys
       /\ exists d desc tok bal,
            Row.get "Date" row = Some d
            /\ Row.get "Description" row = Some desc
            /\ Row.get "Amount" row = Some tok
            /\ Row.get "Balance" row = Some bal
            /\ Row.get "Credit/Debit" row
               = Some (if Js.includes tok "-" then "Debit" else "Credit")
            /\ Js.matchClasses dateRegex d = true
            /\ desc <> ""
            /\ Js.existsChar Js.isDigit tok = true
            /\ Js.existsChar Js.isDigit bal = true)
    (parsePdfTextToRows text).
Proof.
  unfold parsePdfTextToRows. apply Forall_filterMap.
  intros line row _ Hrow.
  destruct (pdfLineToRow_row line row Hrow)
    as (d & desc & tok & bal & -> & Hd & Hdesc & Htok & Hbal).
  split; [reflexivity|].
  exists d, desc, tok, bal. repeat split; assumption.
Qed.

(** ** parseCsv *)

Lemma get_None_keys (k : string) (row : Row) :
  Row.get k row = None <-> ~ In k (keys row).
Proof.
  unfold keys. induction row as [|[k' v] row IH]; cbn [Row.get map fst In].
  - tauto.
  - destruct (String.eqb k' k) eqn:E.
    + apply String.eqb_eq in E. split; [discriminate | tauto].
    + apply String.eqb_neq in E. rewrite IH. tauto.
Qed.

Lemma get_update (k k' v : string) (row : Row) :
  Row.get k' (Row.update k v row)
  = if String.eqb k k' then option_map (fun _ => v) (Row.get k' row)
    else Row.get k' row.
Proof.
  induction row as [|[k0 v0] row IH]; cbn [Row.update Row.get].
  - now destruct (String.eqb k k').
  - destruct (String.eqb k0 k) eqn:E0; cbn [Row.get].
    + apply String.eqb_eq in E0. subst k0.
      now destruct (String.eqb k k').
    + destruct (String.eqb k0 k') eqn:E1; [|exact IH].
      apply String.eqb_eq in E1. subst k0.
      rewrite String.eqb_sym, E0. reflexivity.
Qed.

Lemma keys_update (k v : string) (row : Row) :
  keys (Row.update k v row) = keys row.
Proof.
  unfold keys. induction row as [|[k0 v0] row IH]; [reflexivity|].
  cbn [Row.update]. destruct (String.eqb k0 k); cbn [map fst];
    [reflexivity | now rewrite IH].
Qed.

Lemma get_insertIndex (n : Z) (k k' v : string) (row : Row) :
  Row.get k row = None ->
  Row.get k' (Row.insertIndex n k v row)
  = if String.eqb k k' then Some v else Row.get k' row.
Proof.
  induction row as [|[k0 v0] row IH]; cbn [Row.insertIndex Row.get].
  - reflexivity.
  - intros Hnone. destruct (String.eqb k0 k) eqn:E0; [discriminate|].
    assert (Hhead : Row.get k' ((k, v) :: (k0, v0) :: row)
                    = if String.eqb k k' then Some v
                      else if String.eqb k0 k' then Some v0
                           else Row.get k' row) by reflexivity.
    destruct (Row.arrayIndex k0) as [n'|]; [|exact Hhead].
    destruct (n' <? n)%Z; [|exact Hhead].
    cbn [Row.get]. rewrite (IH Hnone).
    destruct (String.eqb k0 k') eqn:E1; [|reflexivity].
    apply String.eqb_eq in E1. subst k0.
    rewrite String.eqb_sym, E0. reflexivity.
Qed.

Lemma keys_insertIndex (n : Z) (k v : string) (row : Row) :
  Permutation (keys (Row.insertIndex n k v row)) (k :: keys row).
Proof.
  unfold keys. induction row as [|[k0 v0] row IH]; cbn [Row.insertIndex].
  - reflexivity.
  - destruct (Row.arrayIndex k0) as [n'|]; [|reflexivity].
    destruct (n' <? n)%Z; [|reflexivity].
    cbn [map fst]. rewrite IH. apply perm_swap.
Qed.

Lemma get_append (k k' v : string) (row : Row) :
  Row.get k' (row ++ [(k, v)])
  = match Row.get k' row with
    | Some v' => Some v'
    | None => if String.eqb k k' then Some v else None
    end.
Proof.
  induction row as [|[k0 v0] row IH]; cbn [app Row.get]; [reflexivity|].
  now destruct (String.eqb k0 k').
Qed.

(** Reading a key after [row[k] = v]: the value just written under [k],
    unless [k] is ["__proto__"]; the value it had under another key. *)
Lemma get_set (k k' v : string) (row : Row) :
  Row.get k' (Row.set k v row)
  = if String.eqb k "__proto__" then Row.get k' row
    else if String.eqb k k' then Some v
         else Row.get k' row.
Proof.
  unfold Row.set. destruct (String.eqb k "__proto__"); [reflexivity|].
  destruct (Row.get k row) as [old|] eqn:Hk.
  - rewrite get_update. destruct (String.eqb k k') eqn:E; [|reflexivity].
    apply String.eqb_eq in E. subst k'. now rewrite Hk.
  - destruct (Row.arrayIndex k) as [n|].
    + now apply get_insertIndex.
    + rewrite get_append. destruct (String.eqb k k') eqn:E.
      * apply String.eqb_eq in E. subst k'. now rewrite Hk.
      * now destruct (Row.get k' row).
Qed.

(** The keys after [row[k] = v]: the same, or [k] as one more key. *)
Lemma keys_set (k v : string) (row : Row) :
  (keys (Row.set k v row) = keys row
   /\ (k = "__proto__" \/ In k (keys row)))
  \/ (Permutation (keys (Row.set k v row)) (k :: keys row)
      /\ k <> "__proto__" /\ ~ In k (keys row)).
Proof.
  unfold Row.set. destruct (String.eqb k "__proto__") eqn:P.
  - apply String.eqb_eq in P. left. tauto.
  - apply String.eqb_neq in P.
    destruct (Row.get k row) as [old|] eqn:Hk.
    + left. split; [apply keys_update|]. right.
      destruct (in_dec string_dec k (keys row)) as [Hin|Hout];
        [exact Hin|].
      apply get_None_keys in Hout. congruence.
    + right. apply get_None_keys in Hk. split; [|tauto].
      destruct (Row.arrayIndex k) as [n|]; [apply keys_insertIndex|].
      unfold keys. rewrite map_app. cbn [map fst].
      apply Permutation_sym, Permutation_cons_append.
Qed.

Lemma csvRow_fold (headers : list string) (line : string) :
  csvRow headers line
  = fold_left (csvStep (Js.splitChar "," line)) (indexed headers) [].
Proof. reflexivity. Qed.

Lemma csv_fold_get_absent
  (cols hs : list string) (k0 : nat) (row0 : Row) (h : string) :
  ~ In h hs ->
  Row.get h (fold_left (csvStep cols) (indexed_from k0 hs) row0)
  = Row.get h row0.
Proof.
  revert k0 row0. induction hs as [|h0 hs IH]; intros k0 row0 Hout;
    [reflexivity|].
  cbn [indexed_from fold_left]. rewrite IH by (cbn [In] in Hout; tauto).
  unfold csvStep. cbn [fst snd]. rewrite get_set.
  destruct (String.eqb h0 "__proto__"); [reflexivity|].
  destruct (String.eqb h0 h) eqn:E; [|reflexivity].
  apply String.eqb_eq in E. subst h0. cbn [In] in Hout. tauto.
Qed.

(** The value under a header after the loop: the trimmed field of the
    last column with this header. *)
Lemma csv_fold_get
  (cols hs : list string) (k0 : nat) (row0 : Row) (h : string) (i : nat) :
  nth_error hs i = Some h ->
  (forall j, (i < j)%nat -> nth_error hs j <> Some h) ->
  h <> "__proto__" ->
  Row.get h (fold_left (csvStep cols) (indexed_from k0 hs) row0)
  = Some (Js.trim (nth (k0 + i) cols "")).
Proof.
  revert k0 row0 i. induction hs as [|h0 hs IH]; intros k0 row0 i Hi Hlast Hp.
  - destruct i; discriminate Hi.
  - cbn [indexed_from fold_left]. destruct i as [|i].
    + injection Hi as ->.
      rewrite csv_fold_get_absent.
      * unfold csvStep. cbn [fst snd]. rewrite get_set.
        apply String.eqb_neq in Hp. rewrite Hp, String.eqb_refl.
        now rewrite Nat.add_0_r.
      * intros Hin. apply In_nth_error in Hin. destruct Hin as [j Hj].
        apply (Hlast (S j)); [lia | exact Hj].
    + rewrite (IH (S k0) _ i Hi).
      * f_equal. f_equal. f_equal. lia.
      * intros j Hj. apply (Hlast (S j)). lia.
      * exact Hp.
Qed.

Lemma parseCsv_map (text header : string) (body : list string) :
  Js.nonBlankLines text = header :: body ->
  parseCsv text = map (csvRow (csvHeaders text)) body.
Proof.
  intros H. unfold parseCsv, csvHeaders. rewrite H. cbn [hd].
  now destruct body.
Qed.

(** X1.  The field of a row of [parseCsv] under a header: the trimmed field of
    the line at the position of the last column with this header, and
    the empty string when the line has no field at this position. *)
Theorem parseCsv_field
  (text header line h : string) (body : list string) (n i : nat) :
  Js.nonBlankLines text = header :: body ->
  nth_error body n = Some line ->
  nth_error (csvHeaders text) i = Some h ->
  (forall j, (i < j)%nat -> nth_error (csvHeaders text) j <> Some h) ->
  h <> "__proto__" ->
  exists row,
    nth_error (parseCsv text) n = Some row
    /\ Row.get h row = Some (Js.trim (nth i (Js.splitChar "," line) "")).
Proof.
  intros Hlines Hline Hh Hlast Hp.
  exists (csvRow (csvHeaders text) line). split.
  - rewrite (parseCsv_map text header body Hlines).
    now apply map_nth_error.
  - rewrite csvRow_fold. unfold indexed.
    now rewrite (csv_fold_get _ _ 0 [] h i Hh Hlast Hp).
Qed.

Lemma parseCsv_field_witness :
  exists row,
    nth_error (parseCsv Sample.twoAmountsCsv) 0 = Some row
    /\ Row.get "Amount" row = Some "".
Proof.
  apply (parseCsv_field Sample.twoAmountsCsv
           "Date,Description,Amount,Amount" "01-10-2025,COFFEE,120" "Amount"
           ["01-10-2025,COFFEE,120"] 0 3).
  - reflexivity.
  - reflexivity.
  - reflexivity.
  - intros [|[|[|[|[|j]]]]] Hj; try lia; discriminate.
  - discriminate.
Defined.

(** One row for each non-blank line after the first, none for a text
    with fewer than two non-blank lines. *)
Theorem parseCsv_length (text : string) :
  List.length (parseCsv text) = pred (List.length (Js.nonBlankLines text)).
Proof.
  unfold parseCsv.
  destruct (Js.nonBlankLines text) as [|header [|line body]];
    [reflexivity | reflexivity |].
  now rewrite length_map.
Qed.

Lemma csv_fold_keys
  (cols hs : list string) (k0 : nat) (row0 : Row) :
  NoDup (keys row0) ->
  NoDup (keys (fold_left (csvStep cols) (indexed_from k0 hs) row0))
  /\ (forall k,
        In k (keys (fold_left (csvStep cols) (indexed_from k0 hs) row0))
        <-> In k (keys row0) \/ (In k hs /\ k <> "__proto__")).
Proof.
  revert k0 row0. induction hs as [|h0 hs IH]; intros k0 row0 Hnd.
  - cbn [indexed_from fold_left In]. split; [exact Hnd | tauto].
  - cbn [indexed_from fold_left].
    set (row1 := csvStep cols row0 (k0, h0)).
    assert (H1 : NoDup (keys row1)
                 /\ (forall k, In k (keys row1)
                               <-> In k (keys row0)
                                   \/ (k = h0 /\ k <> "__proto__"))).
    { unfold row1, csvStep. cbn [fst snd].
      destruct (keys_set h0 (Js.trim (nth k0 cols "")) row0)
        as [[-> Hold]|(Hperm & Hp & Hout)].
      - split; [exact Hnd|]. intros k. split; [tauto|].
        intros [H|[-> H]]; [exact H|]. destruct Hold; [contradiction|assumption].
      - split.
        + apply (Permutation_NoDup (Permutation_sym Hperm)).
          now constructor.
        + intros k. split.
          * intros H. apply (Permutation_in _ Hperm) in H.
            destruct H as [<-|H]; [right; tauto | now left].
          * intros H. apply (Permutation_in _ (Permutation_sym Hperm)).
            destruct H as [H|[-> _]]; [now right | now left]. }
    destruct H1 as [Hnd1 Hk1].
    destruct (IH (S k0) row1 Hnd1) as [Hnd2 Hk2].
    split; [exact Hnd2|].
    intros k. rewrite Hk2, Hk1. cbn [In]. split.
    + intros [[H|[-> H]]|[H H']]; auto.
    + intros [H|[[<-|H] H']]; auto.
Qed.

(** X2.  Every row of [parseCsv] has each key once, and its keys are the
    headers of the text other than ["__proto__"]: a field beyond the last
    header is dropped, a header beyond the last field is still a key. *)
Theorem parseCsv_keys (text : string) :
  Forall
    (fun row =>
       NoDup (keys row)
       /\ forall k,
            In k (keys row) <-> In k (csvHeaders text) /\ k <> "__proto__")
    (parseCsv text).
Proof.
  destruct (Js.nonBlankLines text) as [|header body] eqn:Hlines.
  - unfold parseCsv. rewrite Hlines. constructor.
  - rewrite (parseCsv_map text header body Hlines).
    rewrite Forall_map. rewrite Forall_forall. intros line _.
    rewrite csvRow_fold. unfold indexed.
    destruct (csv_fold_keys (Js.splitChar "," line) (csvHeaders text) 0 [])
      as [Hnd Hk]; [constructor|].
    split; [exact Hnd|].
    intros k. rewrite Hk. cbn [keys map In]. tauto.
Qed.

(** ** PDF uploads and the clock *)

Lemma pdf_rows_dated (text : string) :
  Forall hasDate (parsePdfTextToRows text).
Proof.
  unfold parsePdfTextToRows. apply Forall_filterMap.
  intros line row _ Hrow.
  destruct (pdfLineToRow_row line row Hrow)
    as (d & desc & tok & bal & -> & Hd & _).
  destruct d as [|c d]; [discriminate Hd|].
  unfold hasDate. cbn [Row.firstTruthy Row.truthyGet Row.get].
  change (String.eqb "Date" "Date") with true. cbv iota.
  change (Js.truthy (String c d)) with true. cbv iota.
  discriminate.
Qed.

(** X6.  The answer to a PDF upload does not depend on the day of the
    request: every row of the PDF extractor has a date, so the mapper
    never takes the date of the clock. *)
Theorem POST_pdf_clock_independent
  (day1 day2 : string) (extract : string -> option string) (file : File) :
  isPdf file = true ->
  POST {| today := day1; pdfParse := extract |} (FormData (Some file))
  = POST {| today := day2; pdfParse := extract |} (FormData (Some file)).
Proof.
  intros Hpdf. cbn [POST]. unfold extractRows. rewrite Hpdf.
  cbn [pdfParse].
  destruct (extract (file_content file)) as [text|]; [|reflexivity].
  unfold analyzeRows.
  destruct (parsePdfTextToRows text) as [|row rows] eqn:E; [reflexivity|].
  rewrite (transactionsOf_dated
             {| today := day1; pdfParse := extract |}
             {| today := day2; pdfParse := extract |} (row :: rows));
    [reflexivity|].
  rewrite <- E. apply pdf_rows_dated.
Qed.

Lemma POST_pdf_clock_independent_witness :
  isPdf Sample.scenarioB_pdf = true
  /\ POST (Sample.env "2025-11-02") (FormData (Some Sample.scenarioB_pdf))
     = POST (Sample.env "2026-01-31") (FormData (Some Sample.scenarioB_pdf)).
Proof.
  split; [reflexivity|].
  exact (POST_pdf_clock_independent "2025-11-02" "2026-01-31"
           (fun bytes => Some bytes) Sample.scenarioB_pdf eq_refl).
Defined.

Lemma ofType_DEBIT_all_credit (txs : list Transaction) :
  Forall (fun tx => type tx = CREDIT /\ category tx = INCOME) txs ->
  ofType DEBIT txs = [].
Proof.
  induction 1 as [|tx txs [Hty _] _ IH]; [reflexivity|].
  rewrite ofType_cons, Hty. exact IH.
Qed.

(** X5.  A PDF upload never shows a spending: whatever text the extractor
    reads from the file, every transaction of the answer is a CREDIT of
    category INCOME, also where the row says Debit, and the total
    spending is 0. *)
Theorem POST_pdf_all_credit
  (env : Env) (file : File) (txs : list Transaction) (s : AnalysisSummary) :
  isPdf file = true ->
  POST env (FormData (Some file)) = Analysis txs s ->
  Forall (fun tx => type tx = CREDIT /\ category tx = INCOME) txs
  /\ (totalSpending s == 0)%Q.
Proof.
  intros Hpdf. cbn [POST]. unfold extractRows. rewrite Hpdf.
  destruct (pdfParse env (file_content file)) as [text|]; [|discriminate].
  unfold analyzeRows.
  destruct (parsePdfTextToRows text) as [|row rows] eqn:E; [discriminate|].
  intros [= <- <-]. rewrite <- E.
  pose proof (pdf_transactions_all_credit env text) as Hall.
  split; [exact Hall|].
  destruct (computeSummary_fold_sums INCOME
              (transactionsOf env (parsePdfTextToRows text)))
    as (_ & -> & _).
  now rewrite (ofType_DEBIT_all_credit _ Hall).
Qed.

Lemma POST_pdf_all_credit_witness :
  isPdf Sample.scenarioB_pdf = true
  /\ exists txs s,
       POST (Sample.env "2025-11-02") (FormData (Some Sample.scenarioB_pdf))
       = Analysis txs s
       /\ (totalSpending s == 0)%Q.
Proof.
  split; [reflexivity|]. eexists. eexists.
  assert (H : POST (Sample.env "2025-11-02")
                (FormData (Some Sample.scenarioB_pdf))
              = Analysis
                  (transactionsOf (Sample.env "2025-11-02")
                     (parsePdfTextToRows Sample.scenarioB))
                  (computeSummary
                     (transactionsOf (Sample.env "2025-11-02")
                        (parsePdfTextToRows Sample.scenarioB))))
    by (vm_compute; reflexivity).
  split; [exact H|].
  exact (proj2 (POST_pdf_all_credit (Sample.env "2025-11-02")
                  Sample.scenarioB_pdf _ _ eq_refl H)).
Defined.

(** ** The loop of the summary, whatever the arithmetic *)

Section AggregateFacts.

Context {N : Type} (zero : N) (add sub : N -> N -> N).

Lemma Aggregate_addTo_keys (c : Category) (a : N) (m : list (Category * N)) :
  map fst (Aggregate.addTo add c a m) = map fst m.
Proof.
  unfold Aggregate.addTo. rewrite map_map. apply map_ext.
  intros [k v]. cbn [fst]. now destruct (Category_eqb k c).
Qed.

Lemma Aggregate_lookup_addTo
  (c c' : Category) (a : N) (m : list (Category * N)) :
  In c (map fst m) ->
  Aggregate.lookup zero c (Aggregate.addTo add c' a m)
  = if Category_eqb c' c then add (Aggregate.lookup zero c m) a
    else Aggregate.lookup zero c m.
Proof.
  unfold Aggregate.lookup, Aggregate.addTo.
  induction m as [|[k v] m IH]; cbn [map fst In find snd]; [contradiction|].
  intros Hin.
  destruct (Category_eqb k c') eqn:Ekc'; cbn [fst snd find].
  - apply Category_eqb_eq in Ekc'. subst k.
    destruct (Category_eqb c' c) eqn:E; [reflexivity|].
    apply IH. destruct Hin as [->|Hin]; [|exact Hin].
    now rewrite Category_eqb_refl in E.
  - destruct (Category_eqb k c) eqn:Ekc.
    + apply Category_eqb_eq in Ekc. subst k.
      destruct (Category_eqb c' c) eqn:E; [|reflexivity].
      apply Category_eqb_eq in E. subst c'.
      now rewrite Category_eqb_refl in Ekc'.
    + apply IH. destruct Hin as [->|Hin]; [|exact Hin].
      now rewrite Category_eqb_refl in Ekc.
Qed.

Lemma amountsWhere_cons
  (p : Aggregate.Item N -> bool) (it : Aggregate.Item N)
  (items : list (Aggregate.Item N)) :
  Aggregate.amountsWhere p (it :: items)
  = if p it then Aggregate.itemAmount it :: Aggregate.amountsWhere p items
    else Aggregate.amountsWhere p items.
Proof.
  unfold Aggregate.amountsWhere. cbn [filter]. now destruct (p it).
Qed.

(** What the loop has made of its three variables after [items]: each
    has had its own amounts added, in the order of the list. *)
Lemma Aggregate_fold
  (c : Category) (items : list (Aggregate.Item N))
  (income spending : N) (categories : list (Category * N)) :
  In c (map fst categories) ->
  let r := fold_left (Aggregate.step add) items (income, spending, categories) in
  fst (fst r)
  = fold_left add (Aggregate.amountsWhere Aggregate.isCredit items) income
  /\ snd (fst r)
     = fold_left add (Aggregate.amountsWhere Aggregate.isDebit items) spending
  /\ map fst (snd r) = map fst categories
  /\ Aggregate.lookup zero c (snd r)
     = fold_left add
         (Aggregate.amountsWhere (Aggregate.inCategory c) items)
         (Aggregate.lookup zero c categories).
Proof.
  revert income spending categories.
  induction items as [|[[ty a] c0] items IH];
    intros income spending categories Hin; cbv zeta.
  - repeat split; reflexivity.
  - cbn [fold_left Aggregate.step].
    cbn [Aggregate.itemType Aggregate.itemAmount Aggregate.itemCategory
         fst snd].
    match goal with
    | |- context [fold_left _ items (?i, ?s, ?b)] =>
        destruct (IH i s b) as (Hi & Hs & Hk & Hc)
    end.
    { now rewrite Aggregate_addTo_keys. }
    cbv zeta in Hi, Hs, Hk, Hc. rewrite Hi, Hs, Hk, Hc.
    rewrite Aggregate_addTo_keys, (Aggregate_lookup_addTo c c0 a _ Hin).
    rewrite !amountsWhere_cons.
    unfold Aggregate.isDebit, Aggregate.isCredit, Aggregate.inCategory.
    cbn [Aggregate.itemType Aggregate.itemAmount Aggregate.itemCategory
         fst snd].
    destruct ty; cbn [TransactionType_eqb negb];
      destruct (Category_eqb c0 c); repeat split; reflexivity.
Qed.

Lemma Aggregate_zero_lookup (c : Category) :
  Aggregate.lookup zero c (Aggregate.zeroByCategory zero) = zero.
Proof. now destruct c. Qed.

(** The summary of the loop: [net] is the difference of the two totals,
    and each total and each value of [byCategory] is the sum of its own
    amounts, from 0, in the order of the list. *)
Lemma Aggregate_computeSummary (items : list (Aggregate.Item N)) :
  let s := Aggregate.computeSummary zero add sub items in
  Aggregate.net s = sub (Aggregate.totalIncome s) (Aggregate.totalSpending s)
  /\ Aggregate.totalIncome s
     = Aggregate.inOrder zero add
         (Aggregate.amountsWhere Aggregate.isCredit items)
  /\ Aggregate.totalSpending s
     = Aggregate.inOrder zero add
         (Aggregate.amountsWhere Aggregate.isDebit items)
  /\ map fst (Aggregate.byCategory s) = allCategories
  /\ (forall c,
        Aggregate.lookup zero c (Aggregate.byCategory s)
        = Aggregate.inOrder zero add
            (Aggregate.amountsWhere (Aggregate.inCategory c) items)).
Proof.
  cbv zeta. unfold Aggregate.computeSummary, Aggregate.inOrder.
  assert (H : forall c,
             In c (map fst (Aggregate.zeroByCategory zero)))
    by (intros c; apply allCategories_complete).
  pose proof (fun c => Aggregate_fold c items zero zero
                         (Aggregate.zeroByCategory zero) (H c)) as F.
  cbv zeta in F.
  destruct (fold_left (Aggregate.step add) items
              (zero, zero, Aggregate.zeroByCategory zero))
    as [[income spending] categories].
  cbn [fst snd] in F.
  cbn [Aggregate.net Aggregate.totalIncome Aggregate.totalSpending
       Aggregate.byCategory].
  split; [reflexivity|].
  split; [exact (proj1 (F INCOME))|].
  split; [exact (proj1 (proj2 (F INCOME)))|].
  split; [exact (proj1 (proj2 (proj2 (F INCOME))))|].
  intros c. rewrite (proj2 (proj2 (proj2 (F c)))).
  now rewrite Aggregate_zero_lookup.
Qed.

End AggregateFacts.

(** [computeSummary] is the loop over the exact rationals. *)
Lemma fold_summaryStep_as_aggregate (txs : list Transaction) (acc : Totals) :
  let r :=
    fold_left (Aggregate.step Qplus) (map summarized txs)
      (accIncome acc, accSpending acc, accByCategory acc) in
  let acc' := fold_left summaryStep txs acc in
  accIncome acc' = fst (fst r)
  /\ accSpending acc' = snd (fst r)
  /\ accByCategory acc' = snd r.
Proof.
  revert acc. induction txs as [|tx txs IH]; intros acc; cbv zeta.
  - repeat split; reflexivity.
  - cbn [fold_left map].
    assert (E : Aggregate.step Qplus
                  (accIncome acc, accSpending acc, accByCategory acc)
                  (summarized tx)
                = (accIncome (summaryStep acc tx),
                   accSpending (summaryStep acc tx),
                   accByCategory (summaryStep acc tx)))
      by (unfold summarized, summaryStep, Aggregate.step;
          cbn [Aggregate.itemType Aggregate.itemAmount Aggregate.itemCategory
               fst snd accIncome accSpending accByCategory];
          now destruct (type tx)).
    rewrite E. apply IH.
Qed.

Lemma computeSummary_as_aggregate (txs : list Transaction) :
  let s := computeSummary txs in
  let g := Aggregate.computeSummary 0%Q Qplus Qminus (map summarized txs) in
  totalIncome s = Aggregate.totalIncome g
  /\ totalSpending s = Aggregate.totalSpending g
  /\ net s = Aggregate.net g
  /\ byCategory s = Aggregate.byCategory g
  /\ bankFees (leaks s) = Aggregate.bankFees g
  /\ subscriptions (leaks s) = Aggregate.subscriptions g
  /\ foodDelivery (leaks s) = Aggregate.foodDelivery g.
Proof.
  cbv zeta. unfold computeSummary, Aggregate.computeSummary.
  pose proof (fold_summaryStep_as_aggregate txs
                {| accIncome := 0; accSpending := 0;
                   accByCategory := zeroByCategory |}) as F.
  cbv zeta in F. cbn [accIncome accSpending accByCategory] in F.
  change (Aggregate.zeroByCategory 0%Q) with zeroByCategory.
  destruct (fold_left (Aggregate.step Qplus) (map summarized txs)
              (0%Q, 0%Q, zeroByCategory))
    as [[income spending] categories].
  cbn [fst snd] in F. destruct F as (-> & -> & ->).
  repeat split; reflexivity.
Qed.

(** C5, as the code has it.  Whatever the arithmetic of the amounts,
    binary64 included: [net] is [totalIncome - totalSpending]; the keys
    of [byCategory] are the 11 categories; [totalIncome], [totalSpending]
    and the value of [byCategory] under a category are the sums, from 0
    and in the order of the list, of the amounts of the CREDIT
    transactions, of the other transactions, and of the transactions of
    this category.  Over the exact rationals, where [computeSummary] is
    this loop, the values of [byCategory] add up to
    [totalIncome + totalSpending]. *)
Theorem computeSummary_accumulation :
  (forall (N : Type) (zero : N) (add sub : N -> N -> N)
          (items : list (Aggregate.Item N)),
     let s := Aggregate.computeSummary zero add sub items in
     Aggregate.net s
     = sub (Aggregate.totalIncome s) (Aggregate.totalSpending s)
     /\ Aggregate.totalIncome s
        = Aggregate.inOrder zero add
            (Aggregate.amountsWhere Aggregate.isCredit items)
     /\ Aggregate.totalSpending s
        = Aggregate.inOrder zero add
            (Aggregate.amountsWhere Aggregate.isDebit items)
     /\ map fst (Aggregate.byCategory s) = allCategories
     /\ (forall c,
           Aggregate.lookup zero c (Aggregate.byCategory s)
           = Aggregate.inOrder zero add
               (Aggregate.amountsWhere (Aggregate.inCategory c) items)))
  /\ (forall txs : list Transaction,
        let s := computeSummary txs in
        let g := Aggregate.computeSummary 0%Q Qplus Qminus
                   (map summarized txs) in
        totalIncome s = Aggregate.totalIncome g
        /\ totalSpending s = Aggregate.totalSpending g
        /\ net s = Aggregate.net g
        /\ byCategory s = Aggregate.byCategory g
        /\ (sumValues (byCategory s) == totalIncome s + totalSpending s)%Q
        /\ net s = (totalIncome s - totalSpending s)%Q).
Proof.
  split.
  - intros N zero add sub items. apply Aggregate_computeSummary.
  - intros txs. cbv zeta.
    destruct (computeSummary_as_aggregate txs) as (Hi & Hs & Hn & Hb & _).
    destruct (computeSummary_partition txs) as (_ & Hsum & Hnet).
    cbv zeta in Hi, Hs, Hn, Hb, Hsum, Hnet.
    repeat split; assumption.
Qed.

(** C5 as stated fails on doubles: for the payments 0.3 (OTHER), 0.2
    (RENT) and 0.1 (GROCERIES), [totalIncome + totalSpending] is 0.6 and
    the values of [byCategory] add up to 0.6000000000000001, from the
    first key to the last and from the last to the first. *)
Lemma computeSummary_binary64_values_sum :
  let s :=
    Aggregate.computeSummary Double.zero Double.add Double.sub Sample.tenths in
  Double.add (Aggregate.totalIncome s) (Aggregate.totalSpending s)
  = S754_finite false 5404319552844595 (-53)
  /\ Aggregate.sumValues Double.zero Double.add (Aggregate.byCategory s)
     = S754_finite false 5404319552844596 (-53)
  /\ Aggregate.sumValuesRight Double.zero Double.add (Aggregate.byCategory s)
     = S754_finite false 5404319552844596 (-53)
  /\ Double.eqb
       (Aggregate.sumValues Double.zero Double.add (Aggregate.byCategory s))
       (Double.add (Aggregate.totalIncome s) (Aggregate.totalSpending s))
     = false
  /\ Double.eqb
       (Aggregate.sumValuesRight Double.zero Double.add
          (Aggregate.byCategory s))
       (Double.add (Aggregate.totalIncome s) (Aggregate.totalSpending s))
     = false.
Proof. cbv zeta. repeat split; vm_compute; reflexivity. Qed.

(** ** The summary has no merchant ranking *)

(** C2, as the code has it: the summary [computeSummary] returns has the
    properties totalIncome, totalSpending, net, byCategory and leaks and
    no property topMerchants, so the [topMerchants] the page takes from
    it is the empty list. *)
Theorem computeSummary_no_topMerchants (txs : list Transaction) :
  map fst (summaryObject (computeSummary txs))
  = ["totalIncome"; "totalSpending"; "net"; "byCategory"; "leaks"]
  /\ property "topMerchants" (summaryObject (computeSummary txs)) = None
  /\ Page.topMerchants (Some (summaryObject (computeSummary txs))) = [].
Proof. repeat split; reflexivity. Qed.

(** C2 as stated fails: the summary of a list with two DEBIT transactions
    that are not transfers has no property topMerchants. *)
Lemma computeSummary_october_no_topMerchants :
  List.length
    (filter
       (fun tx =>
          TransactionType_eqb (type tx) DEBIT
          && negb (Category_eqb (category tx) TRANSFER))
       Sample.october) = 2%nat
  /\ property "topMerchants" (summaryObject (computeSummary Sample.october))
     = None.
Proof. split; reflexivity. Qed.

(** ** Income under INCOME *)

(** X17.  Whatever the arithmetic, binary64 included: when exactly the
    CREDIT items have the category INCOME, the value of [byCategory]
    under INCOME is [totalIncome], as both are the same amounts added in
    the same order.  This is so in every answer of the route that
    carries a summary. *)
Theorem computeSummary_INCOME_is_totalIncome :
  (forall (N : Type) (zero : N) (add sub : N -> N -> N)
          (items : list (Aggregate.Item N)),
     Forall
       (fun it =>
          Aggregate.itemCategory it = INCOME
          <-> Aggregate.itemType it = CREDIT)
       items ->
     let s := Aggregate.computeSummary zero add sub items in
     Aggregate.lookup zero INCOME (Aggregate.byCategory s)
     = Aggregate.totalIncome s)
  /\ (forall env req txs s,
        POST env req = Analysis txs s ->
        lookup INCOME (byCategory s) = totalIncome s).
Proof.
  assert (G : forall (N : Type) (zero : N) (add sub : N -> N -> N)
                     (items : list (Aggregate.Item N)),
             Forall
               (fun it =>
                  Aggregate.itemCategory it = INCOME
                  <-> Aggregate.itemType it = CREDIT)
               items ->
             Aggregate.lookup zero INCOME
               (Aggregate.byCategory
                  (Aggregate.computeSummary zero add sub items))
             = Aggregate.totalIncome
                 (Aggregate.computeSummary zero add sub items)).
  { intros N zero add sub items Hall.
    destruct (Aggregate_computeSummary zero add sub items)
      as (_ & Hi & _ & _ & Hc).
    cbv zeta in Hi, Hc. rewrite Hi, (Hc INCOME).
    unfold Aggregate.amountsWhere. f_equal. f_equal.
    apply filter_ext_in. intros it Hit.
    rewrite Forall_forall in Hall. specialize (Hall it Hit).
    unfold Aggregate.inCategory, Aggregate.isCredit.
    destruct (Aggregate.itemType it) eqn:Hty; cbn [TransactionType_eqb].
    - apply Category_eqb_neq. intros Hc'. apply Hall in Hc'. discriminate.
    - apply Category_eqb_eq. now apply Hall. }
  split; [intros N zero add sub items Hall; cbv zeta; now apply G|].
  intros env req txs s HPOST.
  assert (Hwf : exists rows, Forall (wellFormed rows) txs
                             /\ s = computeSummary txs).
  { destruct req as [|[file|]]; cbn [POST] in HPOST; try discriminate.
    destruct (extractRows env file) as [[|row rows]|];
      cbn [analyzeRows] in HPOST; try discriminate.
    injection HPOST as <- <-. exists (row :: rows).
    split; [apply transactionsOf_wellFormed | reflexivity]. }
  destruct Hwf as (rows & Hwf & ->).
  destruct (computeSummary_as_aggregate txs) as (Hi & _ & _ & Hb & _).
  cbv zeta in Hi, Hb. rewrite Hi, Hb.
  apply (G Q 0%Q Qplus Qminus (map summarized txs)).
  rewrite Forall_map. eapply Forall_impl; [|exact Hwf].
  intros tx (_ & Hiff & _). unfold summarized.
  cbn [Aggregate.itemCategory Aggregate.itemType fst snd].
  split; intros H; now apply Hiff.
Qed.

Lemma computeSummary_INCOME_is_totalIncome_witness :
  Forall
    (fun it =>
       Aggregate.itemCategory it = INCOME <-> Aggregate.itemType it = CREDIT)
    Sample.salaryAndRent
  /\ Aggregate.lookup Double.zero INCOME
       (Aggregate.byCategory
          (Aggregate.computeSummary Double.zero Double.add Double.sub
             Sample.salaryAndRent))
     = Aggregate.totalIncome
         (Aggregate.computeSummary Double.zero Double.add Double.sub
            Sample.salaryAndRent).
Proof.
  assert (H : Forall
                (fun it =>
                   Aggregate.itemCategory it = INCOME
                   <-> Aggregate.itemType it = CREDIT)
                Sample.salaryAndRent).
  { repeat constructor; cbn; intros E; try reflexivity; discriminate E. }
  split; [exact H|].
  exact (proj1 computeSummary_INCOME_is_totalIncome
           Double.double Double.zero Double.add Double.sub
           Sample.salaryAndRent H).
Defined.
